(** * Connection table of the Brother scanner driver (network.c)

    A shallow embedding of [network.c]: the table [g_conns] of connection
    records, the handle counter [g_conn_count], and the twelve operations
    (init, connect, send, receive, disconnect, free for UDP and for TCP),
    followed by the properties of the connection state machine.

    The C code runs in a small monad [M] over the program's globals and the
    log of its calls to the operating system.  What the kernel answers to a
    system call is an argument of the operation that makes the call.

    How a run can stop:
    - [assert] is compiled in (no NDEBUG): a false condition calls abort();
    - a load through the NULL pointer that [get_network_conn] returns for a
      handle outside the table faults (page zero is never mapped), which
      kills the process as well;
    - an access to [g_conns[i]] with [i] outside the array touches whatever
      the linker placed around the table: the behaviour is undefined and the
      model says nothing about the memory afterwards. *)

From Stdlib Require Import ZArith String Bool Lia.
From stdpp Require Import base tactics option list.

Local Open Scope Z_scope.

(** ** Platform constants and byte-order functions

    Taken from the system headers (errno.h, netinet/in.h), which are not part
    of the repository: they are parameters of the development. *)

Class Platform := {
  EAGAIN : Z;
  EWOULDBLOCK : Z;
  INADDR_ANY : Z;
  htonl : Z -> Z;
  ntohs : Z -> Z;
  sizeof_sockaddr_in : Z
}.

Definition bswap16 (x : Z) : Z :=
  Z.lor (Z.shiftl (Z.land x 255) 8) (Z.land (Z.shiftr x 8) 255).

Definition bswap32 (x : Z) : Z :=
  Z.lor (Z.shiftl (bswap16 (Z.land x 65535)) 16) (bswap16 (Z.land (Z.shiftr x 16) 65535)).

(** Linux on a little-endian machine. *)
Definition linux_le : Platform := {|
  EAGAIN := 11;
  EWOULDBLOCK := 11;
  INADDR_ANY := 0;
  htonl := bswap32;
  ntohs := bswap16;
  sizeof_sockaddr_in := 16
|}.

(** ** Machine integers *)

(** [(unsigned) x] for a 32-bit [int]. *)
Definition to_unsigned (x : Z) : Z := x mod 2 ^ 32.

(** Conversion to 32-bit [int] with wrap-around: the cast [(int) ssize_t] and
    the result of an atomic addition. *)
Definition to_int (x : Z) : Z := (x + 2 ^ 31) mod 2 ^ 32 - 2 ^ 31.

Definition int_range (x : Z) : Prop := - 2 ^ 31 <= x < 2 ^ 31.

(** ** Data model *)

Definition MAX_NETWORK_CONNECTIONS : Z := 32.
Definition CONNECTION_TIMEOUT_SEC : Z := 3.

Inductive network_conn_state :=
| NETWORK_CONN_STATE_UNITIALIZED
| NETWORK_CONN_STATE_DISCONNECTED
| NETWORK_CONN_STATE_CONNECTED.

Definition state_eqb (a b : network_conn_state) : bool :=
  match a, b with
  | NETWORK_CONN_STATE_UNITIALIZED, NETWORK_CONN_STATE_UNITIALIZED => true
  | NETWORK_CONN_STATE_DISCONNECTED, NETWORK_CONN_STATE_DISCONNECTED => true
  | NETWORK_CONN_STATE_CONNECTED, NETWORK_CONN_STATE_CONNECTED => true
  | _, _ => false
  end.

Inductive sa_family := AF_UNSPEC | AF_INET.

(** [struct sockaddr_in]; [s_addr] stands for [sin_addr.s_addr]. *)
Record sockaddr_in := {
  sin_family : sa_family;
  sin_port : Z;
  s_addr : Z
}.

Record network_conn := {
  fd : Z;
  server : bool;
  state : network_conn_state;
  sin_me : sockaddr_in;
  sin_oth : sockaddr_in;
  slen : Z
}.

(** Field assignments [conn->f = v]. *)
Definition set_fd (v : Z) (c : network_conn) : network_conn :=
  {| fd := v; server := server c; state := state c;
     sin_me := sin_me c; sin_oth := sin_oth c; slen := slen c |}.
Definition set_server (v : bool) (c : network_conn) : network_conn :=
  {| fd := fd c; server := v; state := state c;
     sin_me := sin_me c; sin_oth := sin_oth c; slen := slen c |}.
Definition set_state (v : network_conn_state) (c : network_conn) : network_conn :=
  {| fd := fd c; server := server c; state := v;
     sin_me := sin_me c; sin_oth := sin_oth c; slen := slen c |}.
Definition set_sin_me (v : sockaddr_in) (c : network_conn) : network_conn :=
  {| fd := fd c; server := server c; state := state c;
     sin_me := v; sin_oth := sin_oth c; slen := slen c |}.
Definition set_sin_oth (v : sockaddr_in) (c : network_conn) : network_conn :=
  {| fd := fd c; server := server c; state := state c;
     sin_me := sin_me c; sin_oth := v; slen := slen c |}.
Definition set_slen (v : Z) (c : network_conn) : network_conn :=
  {| fd := fd c; server := server c; state := state c;
     sin_me := sin_me c; sin_oth := sin_oth c; slen := v |}.

Definition set_sin_family (v : sa_family) (a : sockaddr_in) : sockaddr_in :=
  {| sin_family := v; sin_port := sin_port a; s_addr := s_addr a |}.
Definition set_sin_port (v : Z) (a : sockaddr_in) : sockaddr_in :=
  {| sin_family := sin_family a; sin_port := v; s_addr := s_addr a |}.
Definition set_s_addr (v : Z) (a : sockaddr_in) : sockaddr_in :=
  {| sin_family := sin_family a; sin_port := sin_port a; s_addr := v |}.

(** ** The operating system as seen by the code *)

Inductive sock_type := SOCK_DGRAM | SOCK_STREAM.
Inductive ip_proto := IPPROTO_IP | IPPROTO_UDP.
Inductive sock_level := SOL_SOCKET.
Inductive sockopt := SO_RCVTIMEO | SO_SNDTIMEO | SO_REUSEADDR.
Inductive optval := Timeval (tv_sec tv_usec : Z) | IntVal (n : Z).

(** The arguments that [snprintf] formats into [hexdump_line]. *)
Inductive hexdump_line :=
| LineSent (sent_bytes len port : Z)
| LineReceived (recv_bytes port : Z).

(** One entry per call that leaves the program, with the kernel's answer
    where the code looks at it. *)
Inductive event :=
| EvSocket (domain : sa_family) (ty : sock_type) (proto : ip_proto) (ret : Z)
| EvSetsockopt (sock : Z) (level : sock_level) (opt : sockopt) (val : optval) (ret : Z)
| EvBind (sock : Z) (addr : sockaddr_in) (ret : Z)
| EvConnect (sock : Z) (addr : sockaddr_in) (len : Z) (ret : Z)
| EvSendto (sock : Z) (buf : list Byte.byte) (len : Z) (dest : sockaddr_in) (dlen : Z) (ret : Z)
| EvSend (sock : Z) (buf : list Byte.byte) (len : Z) (ret : Z)
| EvRecvfrom (sock : Z) (len : Z) (ret : Z)
| EvRecv (sock : Z) (len : Z) (ret : Z)
| EvClose (sock : Z)
| EvPerror (msg : string)
| EvHexdump (line : hexdump_line) (buf : list Byte.byte) (len : Z).

(** The kernel's answers during one init call. *)
Record init_reply := {
  socket_ret : Z;
  rcvtimeo_ret : Z;
  sndtimeo_ret : Z;
  reuseaddr_ret : Z;
  bind_ret : Z
}.

(** The kernel's answer to [recvfrom] / [recv]: the return value, [errno]
    after the call, the bytes now in the caller's buffer and (for
    [recvfrom]) the sender written to [sin_oth_tmp]. *)
Record recv_reply := {
  recv_ret : Z;
  recv_errno : Z;
  recv_buf : list Byte.byte;
  recv_from : sockaddr_in
}.

(** ** Program state and the monad *)

Record machine := {
  g_conn_count : Z;
  g_conns : list network_conn;
  os_trace : list event
}.

Definition set_g_conn_count (v : Z) (m : machine) : machine :=
  {| g_conn_count := v; g_conns := g_conns m; os_trace := os_trace m |}.
Definition set_g_conns (v : list network_conn) (m : machine) : machine :=
  {| g_conn_count := g_conn_count m; g_conns := v; os_trace := os_trace m |}.
Definition log_event (e : event) (m : machine) : machine :=
  {| g_conn_count := g_conn_count m; g_conns := g_conns m;
     os_trace := os_trace m ++ [e] |}.

Inductive fault := AssertionFailed | NullDereference.

Inductive outcome (A : Type) :=
| Returned (a : A) (m : machine)
| Killed (f : fault) (m : machine)
| Undefined.
Arguments Returned {A} a m.
Arguments Killed {A} f m.
Arguments Undefined {A}.

Definition M (A : Type) : Type := machine -> outcome A.

Definition ret {A : Type} (a : A) : M A := fun m => Returned a m.

Definition bindM {A B : Type} (c : M A) (f : A -> M B) : M B := fun m =>
  match c m with
  | Returned a m' => f a m'
  | Killed k m' => Killed k m'
  | Undefined => Undefined
  end.

Declare Scope M_scope.
Delimit Scope M_scope with M.
Bind Scope M_scope with M.
Notation "x ← y ; z" := (bindM y (fun x => z)) (only parsing) : M_scope.
Notation "x ;; z" := (bindM x (fun _ => z)) (only parsing) : M_scope.
Local Open Scope M_scope.

Definition assert (b : bool) : M unit :=
  fun m => if b then Returned tt m else Killed AssertionFailed m.

Definition emit (e : event) : M unit :=
  fun m => Returned tt (log_event e m).

(** A [struct network_conn *]: NULL or [&g_conns[i]]. *)
Inductive conn_ptr := NULL | Elem (i : Z).

Definition in_table (i : Z) : bool :=
  (0 <=? i) && (i <? MAX_NETWORK_CONNECTIONS).

(** Reading [*conn]. *)
Definition load (p : conn_ptr) : M network_conn := fun m =>
  match p with
  | NULL => Killed NullDereference m
  | Elem i =>
      if in_table i then
        match g_conns m !! Z.to_nat i with
        | Some c => Returned c m
        | None => Undefined
        end
      else Undefined
  end.

(** Writing a field of [*conn]. *)
Definition store (p : conn_ptr) (f : network_conn -> network_conn) : M unit :=
  c ← load p;
  match p with
  | NULL => fun m => Killed NullDereference m
  | Elem i => fun m => Returned tt (set_g_conns (<[Z.to_nat i := f c]> (g_conns m)) m)
  end.

(** [atomic_fetch_add(&g_conn_count, n)]: returns the old value. *)
Definition atomic_fetch_add_g_conn_count (n : Z) : M Z := fun m =>
  Returned (g_conn_count m) (set_g_conn_count (to_int (g_conn_count m + n)) m).

(** System and library calls: log the call, hand back the kernel's answer. *)
Definition socket (domain : sa_family) (ty : sock_type) (proto : ip_proto) (ans : Z) : M Z :=
  emit (EvSocket domain ty proto ans);; ret ans.
Definition setsockopt (sock : Z) (level : sock_level) (opt : sockopt) (val : optval)
    (ans : Z) : M Z :=
  emit (EvSetsockopt sock level opt val ans);; ret ans.
Definition bind (sock : Z) (addr : sockaddr_in) (ans : Z) : M Z :=
  emit (EvBind sock addr ans);; ret ans.
Definition connect (sock : Z) (addr : sockaddr_in) (len : Z) (ans : Z) : M Z :=
  emit (EvConnect sock addr len ans);; ret ans.
Definition sendto (sock : Z) (buf : list Byte.byte) (len : Z)
    (dest : sockaddr_in) (dlen : Z) (ans : Z) : M Z :=
  emit (EvSendto sock buf len dest dlen ans);; ret ans.
Definition send (sock : Z) (buf : list Byte.byte) (len : Z) (ans : Z) : M Z :=
  emit (EvSend sock buf len ans);; ret ans.
Definition recvfrom (sock : Z) (len : Z) (r : recv_reply) : M Z :=
  emit (EvRecvfrom sock len (recv_ret r));; ret (recv_ret r).
Definition recv (sock : Z) (len : Z) (r : recv_reply) : M Z :=
  emit (EvRecv sock len (recv_ret r));; ret (recv_ret r).
Definition close (sock : Z) : M unit := emit (EvClose sock).
Definition perror (msg : string) : M unit := emit (EvPerror msg).
Definition hexdump (line : hexdump_line) (buf : list Byte.byte) (len : Z) : M unit :=
  emit (EvHexdump line buf len).

Definition when (b : bool) (c : M unit) : M unit :=
  if b then c else ret tt.

(** ** The operations of network.c *)

Section Operations.
Context {P : Platform}.

Definition get_network_conn (conn_id : Z) : conn_ptr :=
  if to_unsigned conn_id <? MAX_NETWORK_CONNECTIONS then Elem conn_id else NULL.

Definition network_udp_init_conn (port : Z) (server : bool) (os : init_reply) : M Z :=
  conn_id ← atomic_fetch_add_g_conn_count 1;
  let conn := Elem conn_id in
  c ← load conn;
  assert (state_eqb (state c) NETWORK_CONN_STATE_UNITIALIZED);;
  s ← socket AF_INET SOCK_DGRAM IPPROTO_UDP (socket_ret os);
  store conn (set_fd s);;
  c ← load conn;
  if fd c =? -1 then
    perror "socket";;
    ret (-1)
  else
    store conn (set_server server);;
    let timeout := Timeval CONNECTION_TIMEOUT_SEC 0 in
    c ← load conn;
    rc ← setsockopt (fd c) SOL_SOCKET SO_RCVTIMEO timeout (rcvtimeo_ret os);
    when (negb (rc =? 0)) (perror "setsockopt recv");;
    c ← load conn;
    rc ← setsockopt (fd c) SOL_SOCKET SO_SNDTIMEO timeout (sndtimeo_ret os);
    when (negb (rc =? 0)) (perror "setsockopt send");;
    store conn (fun c => set_sin_me (set_sin_family AF_INET (sin_me c)) c);;
    store conn (fun c => set_sin_me (set_s_addr (htonl INADDR_ANY) (sin_me c)) c);;
    store conn (fun c => set_sin_me (set_sin_port port (sin_me c)) c);;
    c ← load conn;
    bind_failed ←
      (if 0 <? port then
         rc ← bind (fd c) (sin_me c) (bind_ret os);
         ret (rc =? -1)
       else ret false);
    if bind_failed then
      perror "bind";;
      c ← load conn;
      close (fd c);;
      ret (-1)
    else
      store conn (set_state NETWORK_CONN_STATE_DISCONNECTED);;
      ret conn_id.

Definition network_udp_connect (conn_id addr port : Z) : M Z :=
  let conn := get_network_conn conn_id in
  c ← load conn;
  assert (state_eqb (state c) NETWORK_CONN_STATE_DISCONNECTED);;
  store conn (fun c => set_sin_oth (set_s_addr addr (sin_oth c)) c);;
  store conn (fun c => set_sin_oth (set_sin_family AF_INET (sin_oth c)) c);;
  store conn (fun c => set_sin_oth (set_sin_port port (sin_oth c)) c);;
  store conn (set_slen sizeof_sockaddr_in);;
  store conn (set_state NETWORK_CONN_STATE_CONNECTED);;
  ret 0.

Definition network_udp_send (conn_id : Z) (buf : list Byte.byte) (len : Z)
    (sendto_ret : Z) : M Z :=
  let conn := get_network_conn conn_id in
  c ← load conn;
  assert (state_eqb (state c) NETWORK_CONN_STATE_CONNECTED);;
  sent_bytes ← sendto (fd c) buf len (sin_oth c) (slen c) sendto_ret;
  when (sent_bytes <? 0) (perror "sendto");;
  c ← load conn;
  hexdump (LineSent sent_bytes len (ntohs (sin_port (sin_oth c)))) buf len;;
  ret (to_int sent_bytes).

Definition network_udp_receive (conn_id : Z) (len : Z) (os : recv_reply) : M Z :=
  let conn := get_network_conn conn_id in
  c ← load conn;
  assert ((server c && negb (state_eqb (state c) NETWORK_CONN_STATE_UNITIALIZED))
          || (negb (server c) && state_eqb (state c) NETWORK_CONN_STATE_CONNECTED));;
  recv_bytes ← recvfrom (fd c) len os;
  let sin_oth_tmp := recv_from os in
  let buf := recv_buf os in
  if recv_bytes <? 0 then
    let rc := recv_errno os in
    when (negb (rc =? EAGAIN) && negb (rc =? EWOULDBLOCK)) (perror "recvfrom");;
    ret (-1)
  else
    hexdump (LineReceived recv_bytes (ntohs (sin_port sin_oth_tmp))) buf recv_bytes;;
    c ← load conn;
    (if server c && state_eqb (state c) NETWORK_CONN_STATE_DISCONNECTED then
       _ ← network_udp_connect conn_id (s_addr sin_oth_tmp) (sin_port sin_oth_tmp);
       ret tt
     else ret tt);;
    ret (to_int recv_bytes).

Definition network_udp_disconnect (conn_id : Z) : M Z :=
  let conn := get_network_conn conn_id in
  c ← load conn;
  assert (state_eqb (state c) NETWORK_CONN_STATE_CONNECTED);;
  store conn (set_state NETWORK_CONN_STATE_DISCONNECTED);;
  ret 0.

Definition network_udp_free (conn_id : Z) : M Z :=
  let conn := get_network_conn conn_id in
  c ← load conn;
  assert (state_eqb (state c) NETWORK_CONN_STATE_DISCONNECTED);;
  close (fd c);;
  store conn (set_state NETWORK_CONN_STATE_UNITIALIZED);;
  ret 0.

Definition network_tcp_init_conn (port : Z) (server : bool) (os : init_reply) : M Z :=
  let one := IntVal 1 in
  conn_id ← atomic_fetch_add_g_conn_count 1;
  let conn := Elem conn_id in
  c ← load conn;
  assert (state_eqb (state c) NETWORK_CONN_STATE_UNITIALIZED);;
  s ← socket AF_INET SOCK_STREAM IPPROTO_IP (socket_ret os);
  store conn (set_fd s);;
  c ← load conn;
  if fd c =? -1 then
    perror "socket";;
    ret (-1)
  else
    store conn (set_server false);;
    let timeout := Timeval CONNECTION_TIMEOUT_SEC 0 in
    c ← load conn;
    rc ← setsockopt (fd c) SOL_SOCKET SO_RCVTIMEO timeout (rcvtimeo_ret os);
    when (negb (rc =? 0)) (perror "setsockopt recv");;
    c ← load conn;
    rc ← setsockopt (fd c) SOL_SOCKET SO_SNDTIMEO timeout (sndtimeo_ret os);
    when (negb (rc =? 0)) (perror "setsockopt send");;
    c ← load conn;
    rc ← setsockopt (fd c) SOL_SOCKET SO_REUSEADDR one (reuseaddr_ret os);
    when (negb (rc =? 0)) (perror "setsockopt");;
    store conn (fun c => set_sin_me (set_sin_family AF_INET (sin_me c)) c);;
    store conn (fun c => set_sin_me (set_s_addr (htonl INADDR_ANY) (sin_me c)) c);;
    store conn (fun c => set_sin_me (set_sin_port port (sin_me c)) c);;
    c ← load conn;
    bind_failed ←
      (if 0 <? port then
         rc ← bind (fd c) (sin_me c) (bind_ret os);
         ret (negb (rc =? 0))
       else ret false);
    if bind_failed then
      perror "bind";;
      c ← load conn;
      close (fd c);;
      ret (-1)
    else
      store conn (set_state NETWORK_CONN_STATE_DISCONNECTED);;
      ret conn_id.

Definition network_tcp_connect (conn_id addr port : Z) (connect_ret : Z) : M Z :=
  let conn := get_network_conn conn_id in
  c ← load conn;
  assert (state_eqb (state c) NETWORK_CONN_STATE_DISCONNECTED);;
  store conn (fun c => set_sin_oth (set_s_addr addr (sin_oth c)) c);;
  store conn (fun c => set_sin_oth (set_sin_family AF_INET (sin_oth c)) c);;
  store conn (fun c => set_sin_oth (set_sin_port port (sin_oth c)) c);;
  store conn (set_slen sizeof_sockaddr_in);;
  c ← load conn;
  rc ← connect (fd c) (sin_oth c) (slen c) connect_ret;
  if negb (rc =? 0) then
    perror "connect";;
    ret (-1)
  else
    store conn (set_state NETWORK_CONN_STATE_CONNECTED);;
    ret 0.

Definition network_tcp_send (conn_id : Z) (buf : list Byte.byte) (len : Z)
    (send_ret : Z) : M Z :=
  let conn := get_network_conn conn_id in
  c ← load conn;
  assert (state_eqb (state c) NETWORK_CONN_STATE_CONNECTED);;
  sent_bytes ← send (fd c) buf len send_ret;
  when (sent_bytes <? 0) (perror "sendto");;
  c ← load conn;
  hexdump (LineSent sent_bytes len (ntohs (sin_port (sin_oth c)))) buf len;;
  ret (to_int sent_bytes).

Definition network_tcp_receive (conn_id : Z) (len : Z) (os : recv_reply) : M Z :=
  let conn := get_network_conn conn_id in
  c ← load conn;
  assert (state_eqb (state c) NETWORK_CONN_STATE_CONNECTED);;
  recv_bytes ← recv (fd c) len os;
  let buf := recv_buf os in
  let rc := recv_errno os in
  if recv_bytes <? 0 then
    when (negb (rc =? EAGAIN) && negb (rc =? EWOULDBLOCK)) (perror "recvfrom");;
    ret (-1)
  else
    c ← load conn;
    hexdump (LineReceived recv_bytes (ntohs (sin_port (sin_oth c)))) buf recv_bytes;;
    ret (to_int recv_bytes).

Definition network_tcp_disconnect (conn_id : Z) : M Z :=
  let conn := get_network_conn conn_id in
  c ← load conn;
  assert (state_eqb (state c) NETWORK_CONN_STATE_CONNECTED);;
  close (fd c);;
  store conn (set_state NETWORK_CONN_STATE_DISCONNECTED);;
  ret 0.

Definition network_tcp_free (conn_id : Z) : M Z :=
  let conn := get_network_conn conn_id in
  c ← load conn;
  assert (state_eqb (state c) NETWORK_CONN_STATE_DISCONNECTED);;
  store conn (set_state NETWORK_CONN_STATE_UNITIALIZED);;
  ret 0.

(** ** Calls and runs *)

(** A call of one of the twelve operations, with what the kernel answers
    while it runs. *)
Inductive call :=
| UdpInit (port : Z) (server : bool) (os : init_reply)
| UdpConnect (conn_id addr port : Z)
| UdpSend (conn_id : Z) (buf : list Byte.byte) (len : Z) (sendto_ret : Z)
| UdpReceive (conn_id : Z) (len : Z) (os : recv_reply)
| UdpDisconnect (conn_id : Z)
| UdpFree (conn_id : Z)
| TcpInit (port : Z) (server : bool) (os : init_reply)
| TcpConnect (conn_id addr port : Z) (connect_ret : Z)
| TcpSend (conn_id : Z) (buf : list Byte.byte) (len : Z) (send_ret : Z)
| TcpReceive (conn_id : Z) (len : Z) (os : recv_reply)
| TcpDisconnect (conn_id : Z)
| TcpFree (conn_id : Z).

Definition exec (k : call) : M Z :=
  match k with
  | UdpInit port server os => network_udp_init_conn port server os
  | UdpConnect conn_id addr port => network_udp_connect conn_id addr port
  | UdpSend conn_id buf len r => network_udp_send conn_id buf len r
  | UdpReceive conn_id len os => network_udp_receive conn_id len os
  | UdpDisconnect conn_id => network_udp_disconnect conn_id
  | UdpFree conn_id => network_udp_free conn_id
  | TcpInit port server os => network_tcp_init_conn port server os
  | TcpConnect conn_id addr port r => network_tcp_connect conn_id addr port r
  | TcpSend conn_id buf len r => network_tcp_send conn_id buf len r
  | TcpReceive conn_id len os => network_tcp_receive conn_id len os
  | TcpDisconnect conn_id => network_tcp_disconnect conn_id
  | TcpFree conn_id => network_tcp_free conn_id
  end.

(** The calls of a program one after the other; the results in order. *)
Fixpoint run (ks : list call) : M (list Z) :=
  match ks with
  | [] => ret []
  | k :: ks' =>
      r ← exec k;
      rs ← run ks';
      ret (r :: rs)
  end.

End Operations.

(** The zero-initialised statics at program start. *)
Definition sockaddr_zero : sockaddr_in :=
  {| sin_family := AF_UNSPEC; sin_port := 0; s_addr := 0 |}.

Definition conn_zero : network_conn :=
  {| fd := 0; server := false; state := NETWORK_CONN_STATE_UNITIALIZED;
     sin_me := sockaddr_zero; sin_oth := sockaddr_zero; slen := 0 |}.

Definition machine_start : machine :=
  {| g_conn_count := 0;
     g_conns := replicate (Z.to_nat MAX_NETWORK_CONNECTIONS) conn_zero;
     os_trace := [] |}.

(** ** Vocabulary of the statements *)

(** The slot an init call is about to take: inside the table and unused. *)
Definition next_slot_free (m : machine) (c : network_conn) : Prop :=
  0 <= g_conn_count m < 32
  /\ g_conns m !! Z.to_nat (g_conn_count m) = Some c
  /\ state c = NETWORK_CONN_STATE_UNITIALIZED.

(** The handle a call works on; init calls take none. *)
Definition handle_of (k : call) : option Z :=
  match k with
  | UdpInit _ _ _ | TcpInit _ _ _ => None
  | UdpConnect h _ _ | UdpSend h _ _ _ | UdpReceive h _ _
  | UdpDisconnect h | UdpFree h
  | TcpConnect h _ _ _ | TcpSend h _ _ _ | TcpReceive h _ _
  | TcpDisconnect h | TcpFree h => Some h
  end.

(** The state each operation requires of the record, as the specification
    lists them: connect and free need Disconnected; send, disconnect and the
    stream receive need Connected; the datagram receive needs Connected for
    a client and anything but Uninitialized for a server. *)
Definition spec_required_state (k : call) (c : network_conn) : bool :=
  match k with
  | UdpInit _ _ _ | TcpInit _ _ _ => state_eqb (state c) NETWORK_CONN_STATE_UNITIALIZED
  | UdpConnect _ _ _ | TcpConnect _ _ _ _ | UdpFree _ | TcpFree _ =>
      state_eqb (state c) NETWORK_CONN_STATE_DISCONNECTED
  | UdpSend _ _ _ _ | TcpSend _ _ _ _ | TcpReceive _ _ _
  | UdpDisconnect _ | TcpDisconnect _ =>
      state_eqb (state c) NETWORK_CONN_STATE_CONNECTED
  | UdpReceive _ _ _ =>
      if server c then negb (state_eqb (state c) NETWORK_CONN_STATE_UNITIALIZED)
      else state_eqb (state c) NETWORK_CONN_STATE_CONNECTED
  end.

(** The record a successful init leaves in its slot. *)
Definition conn_after_init `{Platform} (s port : Z) (server : bool) (c : network_conn)
    : network_conn :=
  {| fd := s; server := server; state := NETWORK_CONN_STATE_DISCONNECTED;
     sin_me := {| sin_family := AF_INET; sin_port := port; s_addr := htonl INADDR_ANY |};
     sin_oth := sin_oth c; slen := slen c |}.

(** An init call on a free slot returns; it has advanced the counter and
    written its own slot only.  When [socket] fails only [fd] was written;
    when [bind] fails the record is the one of a success except that it is
    still Uninitialized. *)
Definition init_returned `{Platform} (port : Z) (server : bool) (os : init_reply)
    (m : machine) (c : network_conn) (o : outcome Z) : Prop :=
  exists r m' c',
    o = Returned r m'
    /\ g_conn_count m' = g_conn_count m + 1
    /\ g_conns m' = <[Z.to_nat (g_conn_count m) := c']> (g_conns m)
    /\ (exists ext, os_trace m' = os_trace m ++ ext)
    /\ ((r = -1 /\ socket_ret os = -1 /\ c' = set_fd (-1) c)
        \/ (r = -1 /\ socket_ret os <> -1 /\ 0 < port /\ bind_ret os <> 0
            /\ c' = set_state NETWORK_CONN_STATE_UNITIALIZED
                      (conn_after_init (socket_ret os) port server c))
        \/ (r = g_conn_count m /\ socket_ret os <> -1
            /\ c' = conn_after_init (socket_ret os) port server c)).

Definition is_init (k : call) : bool :=
  match k with
  | UdpInit _ _ _ | TcpInit _ _ _ => true
  | _ => false
  end.

(** Results of init calls that report success / failure. *)
Definition successes (rs : list Z) : nat := length (filter (fun r => r <> -1) rs).
Definition failures (rs : list Z) : nat := length (filter (fun r => r = -1) rs).

(** The table while only init calls have run: the counter is within
    0..32 and every slot from the counter on is still Uninitialized. *)
Definition fresh_from (m : machine) : Prop :=
  0 <= g_conn_count m <= 32
  /\ length (g_conns m) = 32%nat
  /\ forall j c, (Z.to_nat (g_conn_count m) <= j)%nat ->
       g_conns m !! j = Some c -> state c = NETWORK_CONN_STATE_UNITIALIZED.

(** The init calls of a program, and what they returned. *)
Definition inits_in (ks : list call) : nat :=
  length (filter (fun k => is_init k = true) ks).

Definition init_results (ks : list call) (rs : list Z) : list Z :=
  (filter (fun kr : call * Z => is_init (fst kr) = true) (zip ks rs)).*2.

(** The reading "populated only when Connected": a record that is not
    Connected holds no peer address. *)
Definition peer_only_when_connected (m : machine) : Prop :=
  forall i c, g_conns m !! i = Some c ->
    state c <> NETWORK_CONN_STATE_CONNECTED -> sin_oth c = sockaddr_zero.

(** Two records that differ at most in the peer fields of a record that is
    not Connected. *)
Definition conn_agree (c1 c2 : network_conn) : Prop :=
  fd c1 = fd c2 /\ server c1 = server c2 /\ state c1 = state c2
  /\ sin_me c1 = sin_me c2
  /\ (state c1 = NETWORK_CONN_STATE_CONNECTED ->
      sin_oth c1 = sin_oth c2 /\ slen c1 = slen c2).

Definition machine_agree (m1 m2 : machine) : Prop :=
  g_conn_count m1 = g_conn_count m2
  /\ os_trace m1 = os_trace m2
  /\ Forall2 conn_agree (g_conns m1) (g_conns m2).

Definition outcome_agree {A : Type} (o1 o2 : outcome A) : Prop :=
  match o1, o2 with
  | Returned a1 m1, Returned a2 m2 => a1 = a2 /\ machine_agree m1 m2
  | Killed f1 m1, Killed f2 m2 => f1 = f2 /\ machine_agree m1 m2
  | Undefined, Undefined => True
  | _, _ => False
  end.

(** Wiping the peer fields of every record that is not Connected. *)
Definition scrub_peer (c : network_conn) : network_conn :=
  if state_eqb (state c) NETWORK_CONN_STATE_CONNECTED then c
  else set_slen 0 (set_sin_oth sockaddr_zero c).

Definition scrub (m : machine) : machine :=
  set_g_conns (map scrub_peer (g_conns m)) m.

(** ** Sample machines and kernel answers *)

(** A reply of a kernel that grants everything and hands out descriptor [s]. *)
Definition reply_ok (s : Z) : init_reply :=
  {| socket_ret := s; rcvtimeo_ret := 0; sndtimeo_ret := 0;
     reuseaddr_ret := 0; bind_ret := 0 |}.

(** Sample machines: one handle allocated, its record as given. *)
Definition machine_with (c : network_conn) : machine :=
  {| g_conn_count := 1;
     g_conns := <[0%nat := c]> (g_conns machine_start);
     os_trace := [] |}.

Definition udp_server_waiting : network_conn :=
  set_server true (set_state NETWORK_CONN_STATE_DISCONNECTED (set_fd 3 conn_zero)).

(** Four bytes from 127.0.0.1, port 53 (both in network byte order). *)
Definition datagram_of_4 : recv_reply :=
  {| recv_ret := 4; recv_errno := 0;
     recv_buf := [Byte.x01; Byte.x02; Byte.x03; Byte.x04];
     recv_from := {| sin_family := AF_INET; sin_port := 13568; s_addr := 16777343 |} |}.

(** A read that timed out on Linux: -1 with [errno] 11. *)
Definition recv_timed_out : recv_reply :=
  {| recv_ret := -1; recv_errno := 11; recv_buf := []; recv_from := sockaddr_zero |}.

Definition tcp_client_connected : network_conn :=
  set_state NETWORK_CONN_STATE_CONNECTED (set_fd 3 conn_zero).

(** The machine after one successful UDP server init on port 53. *)
Definition after_first_init : machine :=
  match network_udp_init_conn (P := linux_le) 13568 true (reply_ok 3) machine_start with
  | Returned _ m => m
  | _ => machine_start
  end.

(** The kernel refuses the bind (the port is taken). *)
Definition reply_bind_conflict (s : Z) : init_reply :=
  {| socket_ret := s; rcvtimeo_ret := 0; sndtimeo_ret := 0;
     reuseaddr_ret := 0; bind_ret := -1 |}.

(** The kernel has no descriptor left. *)
Definition reply_no_socket : init_reply :=
  {| socket_ret := -1; rcvtimeo_ret := 0; sndtimeo_ret := 0;
     reuseaddr_ret := 0; bind_ret := 0 |}.

(** The machine after one successful TCP init. *)
Definition after_tcp_init : machine :=
  match network_tcp_init_conn (P := linux_le) 0 false (reply_ok 3) machine_start with
  | Returned _ m => m
  | _ => machine_start
  end.

(** A machine in which handle 0 was connected over UDP to 127.0.0.1:53 and
    disconnected again, and one in which a TCP connect to that peer failed. *)
Definition udp_connect_disconnect : list call :=
  [UdpInit 0 false (reply_ok 3); UdpConnect 0 16777343 13568; UdpDisconnect 0].

Definition tcp_connect_refused : list call :=
  [TcpInit 0 false (reply_ok 3); TcpConnect 0 16777343 13568 (-1)].

Definition machine_after (ks : list call) : machine :=
  match run (P := linux_le) ks machine_start with
  | Returned _ m => m
  | _ => machine_start
  end.

(** ** Vocabulary of the further properties *)

(** The state changes an operation on a handle can make: connect,
    disconnect, free, or none. *)
Definition lifecycle_step (s s' : network_conn_state) : bool :=
  match s, s' with
  | NETWORK_CONN_STATE_DISCONNECTED, NETWORK_CONN_STATE_DISCONNECTED
  | NETWORK_CONN_STATE_CONNECTED, NETWORK_CONN_STATE_CONNECTED
  | NETWORK_CONN_STATE_DISCONNECTED, NETWORK_CONN_STATE_CONNECTED
  | NETWORK_CONN_STATE_CONNECTED, NETWORK_CONN_STATE_DISCONNECTED
  | NETWORK_CONN_STATE_DISCONNECTED, NETWORK_CONN_STATE_UNITIALIZED => true
  | _, _ => false
  end.

(** Counting the entries of a log that satisfy a test. *)
Fixpoint count_events (p : event -> bool) (t : list event) : nat :=
  match t with
  | [] => 0
  | e :: t' => ((if p e then 1 else 0) + count_events p t')%nat
  end.

Definition is_close (s : Z) (e : event) : bool :=
  match e with
  | EvClose s' => s' =? s
  | _ => false
  end.

Definition is_socket (e : event) : bool :=
  match e with
  | EvSocket _ _ _ _ => true
  | _ => false
  end.

(** The log line of a call whose failure is reported and otherwise ignored. *)
Definition perror_unless_zero (rc : Z) (msg : string) : list event :=
  if rc =? 0 then [] else [EvPerror msg].

(** The calls a successful UDP / TCP init makes, in order. *)
Definition udp_init_log `{Platform} (port : Z) (os : init_reply) : list event :=
  let s := socket_ret os in
  let timeout := Timeval CONNECTION_TIMEOUT_SEC 0 in
  [EvSocket AF_INET SOCK_DGRAM IPPROTO_UDP s]
  ++ [EvSetsockopt s SOL_SOCKET SO_RCVTIMEO timeout (rcvtimeo_ret os)]
  ++ perror_unless_zero (rcvtimeo_ret os) "setsockopt recv"
  ++ [EvSetsockopt s SOL_SOCKET SO_SNDTIMEO timeout (sndtimeo_ret os)]
  ++ perror_unless_zero (sndtimeo_ret os) "setsockopt send"
  ++ (if 0 <? port
      then [EvBind s {| sin_family := AF_INET; sin_port := port;
                        s_addr := htonl INADDR_ANY |} (bind_ret os)]
      else []).

Definition tcp_init_log `{Platform} (port : Z) (os : init_reply) : list event :=
  let s := socket_ret os in
  let timeout := Timeval CONNECTION_TIMEOUT_SEC 0 in
  [EvSocket AF_INET SOCK_STREAM IPPROTO_IP s]
  ++ [EvSetsockopt s SOL_SOCKET SO_RCVTIMEO timeout (rcvtimeo_ret os)]
  ++ perror_unless_zero (rcvtimeo_ret os) "setsockopt recv"
  ++ [EvSetsockopt s SOL_SOCKET SO_SNDTIMEO timeout (sndtimeo_ret os)]
  ++ perror_unless_zero (sndtimeo_ret os) "setsockopt send"
  ++ [EvSetsockopt s SOL_SOCKET SO_REUSEADDR (IntVal 1) (reuseaddr_ret os)]
  ++ perror_unless_zero (reuseaddr_ret os) "setsockopt"
  ++ (if 0 <? port
      then [EvBind s {| sin_family := AF_INET; sin_port := port;
                        s_addr := htonl INADDR_ANY |} (bind_ret os)]
      else []).

(** A machine whose table has [c] in slot [i] and whose log is extended. *)
Definition with_slot (i : Z) (c : network_conn) (ext : list event) (m : machine) : machine :=
  {| g_conn_count := g_conn_count m;
     g_conns := <[Z.to_nat i := c]> (g_conns m);
     os_trace := os_trace m ++ ext |}.

(** A machine that differs only by a longer log. *)
Definition with_log (ext : list event) (m : machine) : machine :=
  {| g_conn_count := g_conn_count m;
     g_conns := g_conns m;
     os_trace := os_trace m ++ ext |}.

(** The peer a connect or a first datagram records. *)
Definition peer_of (addr port : Z) : sockaddr_in :=
  {| sin_family := AF_INET; sin_port := port; s_addr := addr |}.

Definition connected_to `{Platform} (peer : sockaddr_in) (c : network_conn) : network_conn :=
  {| fd := fd c; server := server c; state := NETWORK_CONN_STATE_CONNECTED;
     sin_me := sin_me c; sin_oth := peer; slen := sizeof_sockaddr_in |}.

(** ** Further sample inputs *)

(** Two servers; the first is freed before the second is created. *)
Definition init_free_init : list call :=
  [UdpInit 0 true (reply_ok 3); UdpFree 0; UdpInit 0 true (reply_ok 3)].

(** A second datagram, from 127.0.0.2 port 53. *)
Definition datagram_from_other : recv_reply :=
  {| recv_ret := 1; recv_errno := 0; recv_buf := [Byte.x05];
     recv_from := {| sin_family := AF_INET; sin_port := 13568; s_addr := 33554559 |} |}.

(** Every [setsockopt] is refused, everything else is granted. *)
Definition reply_options_refused (s : Z) : init_reply :=
  {| socket_ret := s; rcvtimeo_ret := -1; sndtimeo_ret := -1;
     reuseaddr_ret := -1; bind_ret := 0 |}.

(** ** Reasoning about loads and stores *)

Lemma to_unsigned_in_table conn_id :
  int_range conn_id ->
  (to_unsigned conn_id <? MAX_NETWORK_CONNECTIONS) = in_table conn_id.
Proof.
  unfold int_range, to_unsigned, in_table, MAX_NETWORK_CONNECTIONS. intros Hr.
  destruct (Z.leb_spec 0 conn_id) as [Hpos|Hneg]; simpl.
  - rewrite Z.mod_small by lia. reflexivity.
  - apply Z.ltb_ge.
    pose proof (Z.mod_unique conn_id (2 ^ 32) (-1) (conn_id + 2 ^ 32)) as Hm.
    rewrite <- Hm by lia. lia.
Qed.

Lemma in_table_range i : in_table i = true <-> 0 <= i < 32.
Proof. unfold in_table, MAX_NETWORK_CONNECTIONS. lia. Qed.

Lemma get_network_conn_valid conn_id :
  0 <= conn_id < 32 -> get_network_conn conn_id = Elem conn_id.
Proof.
  intros Hr. unfold get_network_conn.
  rewrite to_unsigned_in_table by (unfold int_range; lia).
  apply in_table_range in Hr. rewrite Hr. reflexivity.
Qed.

Lemma get_network_conn_invalid conn_id :
  int_range conn_id -> ~ 0 <= conn_id < 32 -> get_network_conn conn_id = NULL.
Proof.
  intros Hi Hr. unfold get_network_conn. rewrite to_unsigned_in_table by assumption.
  destruct (in_table conn_id) eqn:E; [|reflexivity].
  apply in_table_range in E. contradiction.
Qed.

Lemma lookup_insert_here (l : list network_conn) n c c' :
  l !! n = Some c -> <[n := c']> l !! n = Some c'.
Proof. intros Hl. apply list_lookup_insert_eq. eapply lookup_lt_Some; eassumption. Qed.

(** Symbolic execution of the monadic code at a handle whose record is known. *)
Ltac exec_step :=
  unfold bindM, ret, assert, emit, load, store, when,
    socket, setsockopt, bind, connect, sendto, send, recvfrom, recv, close,
    perror, hexdump, atomic_fetch_add_g_conn_count,
    set_g_conns, set_g_conn_count, log_event,
    set_fd, set_server, set_state, set_sin_me, set_sin_oth, set_slen,
    set_sin_family, set_sin_port, set_s_addr;
  cbn [g_conns g_conn_count os_trace fd server state sin_me sin_oth slen
       sin_family sin_port s_addr state_eqb negb andb orb].

Ltac exec_code Hin Hl :=
  repeat (exec_step;
          change (-1 =? -1) with true;
          change (-1 =? 0) with false;
          change (0 =? 0) with true;
          rewrite ?Hin, ?list_insert_insert_eq, ?(lookup_insert_here _ _ _ _ Hl), ?Hl).

Ltac exec_at Hr Hl :=
  let Hin := fresh "Hin" in
  pose proof (proj2 (in_table_range _) Hr) as Hin;
  rewrite ?(get_network_conn_valid _ Hr);
  exec_code Hin Hl.

(** ** Disconnect *)

(** C7. [disconnect] on a Connected record returns 0 and leaves every field
    but [state], which becomes Disconnected; the UDP variant makes no call to
    the operating system (the log is unchanged), the TCP variant makes
    exactly one, [close] on the record's descriptor.  On a record in any
    other state the assertion fails. *)
Theorem disconnect_effect (conn_id : Z) (m : machine) (c : network_conn) :
  0 <= conn_id < 32 ->
  g_conns m !! Z.to_nat conn_id = Some c ->
  (state c = NETWORK_CONN_STATE_CONNECTED ->
     network_udp_disconnect conn_id m =
       Returned 0
         {| g_conn_count := g_conn_count m;
            g_conns := <[Z.to_nat conn_id :=
                          set_state NETWORK_CONN_STATE_DISCONNECTED c]> (g_conns m);
            os_trace := os_trace m |}
     /\ network_tcp_disconnect conn_id m =
       Returned 0
         {| g_conn_count := g_conn_count m;
            g_conns := <[Z.to_nat conn_id :=
                          set_state NETWORK_CONN_STATE_DISCONNECTED c]> (g_conns m);
            os_trace := os_trace m ++ [EvClose (fd c)] |})
  /\ (state c <> NETWORK_CONN_STATE_CONNECTED ->
     network_udp_disconnect conn_id m = Killed AssertionFailed m
     /\ network_tcp_disconnect conn_id m = Killed AssertionFailed m).
Proof.
  intros Hr Hl. unfold network_udp_disconnect, network_tcp_disconnect.
  split; intros Hs.
  - destruct c as [f sv st me oth sl]; simpl in Hs; subst st.
    split; exec_at Hr Hl; reflexivity.
  - destruct c as [f sv [] me oth sl]; simpl in Hs; try congruence;
      split; exec_at Hr Hl; reflexivity.
Qed.

Lemma disconnect_effect_witness :
  network_udp_disconnect 0
    (machine_with (set_state NETWORK_CONN_STATE_CONNECTED (set_fd 3 conn_zero)))
  = Returned 0
    (machine_with (set_state NETWORK_CONN_STATE_DISCONNECTED (set_fd 3 conn_zero))).
Proof.
  pose proof (disconnect_effect 0
    (machine_with (set_state NETWORK_CONN_STATE_CONNECTED (set_fd 3 conn_zero)))
    (set_state NETWORK_CONN_STATE_CONNECTED (set_fd 3 conn_zero))
    ltac:(lia) eq_refl) as [Hc _].
  destruct (Hc eq_refl) as [Hu _]. exact Hu.
Defined.

(** ** The server flag of TCP init *)

(** C8. [network_tcp_init_conn] does not look at its [server] argument: for
    every port, kernel answer and machine, the call with [true] and the call
    with [false] give the same result and the same machine, hence whatever
    runs afterwards behaves the same. *)
Theorem tcp_init_server_flag_ignored `{Platform} (port : Z) (os : init_reply) (m : machine) :
  network_tcp_init_conn port true os m = network_tcp_init_conn port false os m
  /\ forall (A : Type) (k : Z -> M A),
       bindM (network_tcp_init_conn port true os) k m
       = bindM (network_tcp_init_conn port false os) k m.
Proof. split; reflexivity. Qed.

(** ** Receive *)

(** What [network_udp_connect] leaves in a record. *)
Lemma network_udp_connect_ok `{Platform} (conn_id addr port : Z) (m : machine) (c : network_conn) :
  0 <= conn_id < 32 ->
  g_conns m !! Z.to_nat conn_id = Some c ->
  state c = NETWORK_CONN_STATE_DISCONNECTED ->
  network_udp_connect conn_id addr port m =
    Returned 0
      {| g_conn_count := g_conn_count m;
         g_conns := <[Z.to_nat conn_id :=
                       {| fd := fd c; server := server c;
                          state := NETWORK_CONN_STATE_CONNECTED;
                          sin_me := sin_me c;
                          sin_oth := {| sin_family := AF_INET; sin_port := port;
                                        s_addr := addr |};
                          slen := sizeof_sockaddr_in |}]> (g_conns m);
         os_trace := os_trace m |}.
Proof.
  intros Hr Hl Hs. unfold network_udp_connect.
  destruct c as [f sv st me oth sl]; simpl in Hs; subst st.
  exec_at Hr Hl. reflexivity.
Qed.

(** C1. A successful [network_udp_receive] on a server record in
    Disconnected state stores the sender's address and port as the peer and
    makes the record Connected; table and counter end up exactly as after
    [network_udp_connect] with the sender's address and port.  On a record
    that is already Connected, a successful receive changes neither the
    table nor the counter. *)
Theorem udp_receive_lazy_peer_binding `{Platform}
    (conn_id len : Z) (os : recv_reply) (m : machine) (c : network_conn) :
  0 <= conn_id < 32 ->
  g_conns m !! Z.to_nat conn_id = Some c ->
  0 <= recv_ret os ->
  (server c = true -> state c = NETWORK_CONN_STATE_DISCONNECTED ->
     exists m' mc c',
       network_udp_receive conn_id len os m = Returned (to_int (recv_ret os)) m'
       /\ network_udp_connect conn_id (s_addr (recv_from os)) (sin_port (recv_from os)) m
          = Returned 0 mc
       /\ g_conns m' = g_conns mc
       /\ g_conn_count m' = g_conn_count mc
       /\ g_conns m' !! Z.to_nat conn_id = Some c'
       /\ state c' = NETWORK_CONN_STATE_CONNECTED
       /\ s_addr (sin_oth c') = s_addr (recv_from os)
       /\ sin_port (sin_oth c') = sin_port (recv_from os))
  /\ (state c = NETWORK_CONN_STATE_CONNECTED ->
     exists m',
       network_udp_receive conn_id len os m = Returned (to_int (recv_ret os)) m'
       /\ g_conns m' = g_conns m
       /\ g_conn_count m' = g_conn_count m).
Proof.
  intros Hr Hl Hret.
  assert (Hnn : (recv_ret os <? 0) = false) by lia.
  split.
  - intros Hsv Hs.
    rewrite (network_udp_connect_ok conn_id _ _ m c Hr Hl Hs).
    destruct c as [f sv st me oth sl]; simpl in Hsv, Hs; subst sv st.
    unfold network_udp_receive, network_udp_connect.
    exec_at Hr Hl. rewrite Hnn. exec_code Hin Hl.
    eexists _, _, _. split; [reflexivity|]. split; [reflexivity|].
    cbn [g_conns g_conn_count]. split; [reflexivity|]. split; [reflexivity|].
    split; [eapply lookup_insert_here; eassumption|].
    repeat split.
  - intros Hs. destruct c as [f sv st me oth sl]; simpl in Hs; subst st.
    unfold network_udp_receive.
    destruct sv; exec_at Hr Hl; rewrite Hnn; exec_code Hin Hl;
      eexists; (split; [reflexivity|]); split; reflexivity.
Qed.

Lemma udp_receive_lazy_peer_binding_witness :
  exists m',
    network_udp_receive (P := linux_le) 0 1500
      datagram_of_4
      (machine_with udp_server_waiting)
    = Returned 4 m'
    /\ (state <$> g_conns m' !! 0%nat) = Some NETWORK_CONN_STATE_CONNECTED
    /\ (sin_oth <$> g_conns m' !! 0%nat)
       = Some {| sin_family := AF_INET; sin_port := 13568; s_addr := 16777343 |}.
Proof.
  destruct (udp_receive_lazy_peer_binding (H := linux_le) 0 1500
      datagram_of_4
      (machine_with udp_server_waiting)
      udp_server_waiting
      ltac:(lia) eq_refl ltac:(simpl; lia)) as [Hlazy _].
  destruct (Hlazy eq_refl eq_refl) as (m' & mc & c' & Hrun & Hconn & Htab & _).
  exists m'. split; [exact Hrun|].
  rewrite Htab. injection Hconn as <-. split; reflexivity.
Defined.

(** C6. A receive whose read fails returns -1 and leaves table and counter
    as they were.  The log gains the read itself and, only when [errno] is
    neither EAGAIN nor EWOULDBLOCK, one [perror] line; nothing else. *)
Theorem receive_failure_classes `{Platform}
    (conn_id len : Z) (os : recv_reply) (m : machine) (c : network_conn) :
  0 <= conn_id < 32 ->
  g_conns m !! Z.to_nat conn_id = Some c ->
  recv_ret os < 0 ->
  let diagnostic :=
    if (recv_errno os =? EAGAIN) || (recv_errno os =? EWOULDBLOCK)
    then [] else [EvPerror "recvfrom"] in
  ((server c = true /\ state c <> NETWORK_CONN_STATE_UNITIALIZED)
   \/ (server c = false /\ state c = NETWORK_CONN_STATE_CONNECTED) ->
     network_udp_receive conn_id len os m =
       Returned (-1)
         {| g_conn_count := g_conn_count m;
            g_conns := g_conns m;
            os_trace := (os_trace m ++ [EvRecvfrom (fd c) len (recv_ret os)]) ++ diagnostic |})
  /\ (state c = NETWORK_CONN_STATE_CONNECTED ->
     network_tcp_receive conn_id len os m =
       Returned (-1)
         {| g_conn_count := g_conn_count m;
            g_conns := g_conns m;
            os_trace := (os_trace m ++ [EvRecv (fd c) len (recv_ret os)]) ++ diagnostic |}).
Proof.
  intros Hr Hl Hret diagnostic. subst diagnostic.
  assert (Hneg : (recv_ret os <? 0) = true) by lia.
  split.
  - intros Hpre. unfold network_udp_receive.
    destruct c as [f sv st me oth sl]; simpl in Hpre.
    destruct Hpre as [[-> Hs]|[-> ->]]; [destruct st; [congruence| |]| ];
      exec_at Hr Hl; rewrite Hneg;
      destruct (recv_errno os =? EAGAIN), (recv_errno os =? EWOULDBLOCK);
      exec_step; rewrite ?app_nil_r; reflexivity.
  - intros Hs. unfold network_tcp_receive.
    destruct c as [f sv st me oth sl]; simpl in Hs; subst st.
    exec_at Hr Hl; rewrite Hneg;
      destruct (recv_errno os =? EAGAIN), (recv_errno os =? EWOULDBLOCK);
      exec_step; rewrite ?app_nil_r; reflexivity.
Qed.

Lemma receive_failure_classes_witness :
  network_tcp_receive (P := linux_le) 0 1500 recv_timed_out (machine_with tcp_client_connected)
  = Returned (-1)
      {| g_conn_count := 1;
         g_conns := g_conns (machine_with tcp_client_connected);
         os_trace := [EvRecv 3 1500 (-1)] |}.
Proof.
  destruct (receive_failure_classes (H := linux_le) 0 1500 recv_timed_out
              (machine_with tcp_client_connected) tcp_client_connected
              ltac:(lia) eq_refl ltac:(simpl; lia)) as [_ Htcp].
  exact (Htcp eq_refl).
Defined.

(** ** Init *)

Lemma to_int_succ n : 0 <= n < 32 -> to_int (n + 1) = n + 1.
Proof.
  intros Hn. unfold to_int.
  rewrite Z.mod_small by lia. lia.
Qed.

Ltac exec_init Hr Hl :=
  let Hin := fresh "Hin" in
  pose proof (proj2 (in_table_range _) Hr) as Hin;
  exec_code Hin Hl.

Lemma trace_extends_refl (t0 : list event) : exists ext, t0 = t0 ++ ext.
Proof. exists []. symmetry. apply app_nil_r. Qed.

Lemma trace_extends_snoc (t0 t : list event) (e : event) :
  (exists ext, t = t0 ++ ext) -> exists ext, t ++ [e] = t0 ++ ext.
Proof. intros [ext ->]. exists (ext ++ [e]). symmetry. apply app_assoc. Qed.

Lemma trace_tail (t0 t : list event) (x y : event) :
  (exists ext, t = t0 ++ ext) ->
  exists pre, (t ++ [x]) ++ [y] = t0 ++ pre ++ [x; y].
Proof.
  intros [ext ->]. exists ext.
  rewrite <- (app_assoc (t0 ++ ext) [x] [y]). rewrite <- (app_assoc t0 ext ([x] ++ [y])).
  reflexivity.
Qed.

Ltac trace_extends :=
  first [apply trace_extends_refl | apply trace_extends_snoc; trace_extends].

(** C5. An init call with [port > 0] whose socket was created and whose bind
    fails logs the failure, closes the descriptor that [socket] returned,
    returns -1 and leaves the record Uninitialized; every other record of
    the table, an earlier successful init's in particular, is untouched. *)
Theorem init_bind_failure `{Platform}
    (port : Z) (server : bool) (os : init_reply) (m : machine) (c : network_conn) :
  next_slot_free m c ->
  0 < port ->
  socket_ret os <> -1 ->
  bind_ret os = -1 ->
  forall init, init = network_udp_init_conn \/ init = network_tcp_init_conn ->
  exists m',
    init port server os m = Returned (-1) m'
    /\ (exists pre,
          os_trace m' = os_trace m ++ pre ++ [EvPerror "bind"; EvClose (socket_ret os)])
    /\ (exists c', g_conns m' !! Z.to_nat (g_conn_count m) = Some c'
                   /\ state c' = NETWORK_CONN_STATE_UNITIALIZED)
    /\ forall j, j <> Z.to_nat (g_conn_count m) -> g_conns m' !! j = g_conns m !! j.
Proof.
  intros (Hr & Hl & Hs) Hport Hsock Hbind init Hinit.
  assert (Hp : (0 <? port) = true) by lia.
  assert (Hfd : (socket_ret os =? -1) = false) by lia.
  destruct c as [f sv st me oth sl]; simpl in Hs; subst st.
  destruct Hinit; subst init.
  - unfold network_udp_init_conn. exec_init Hr Hl.
    rewrite Hfd. exec_code Hin Hl. rewrite Hp. exec_code Hin Hl.
    rewrite Hbind. exec_code Hin Hl.
    destruct (rcvtimeo_ret os =? 0), (sndtimeo_ret os =? 0); exec_code Hin Hl;
      (eexists; split; [reflexivity|]; cbn [os_trace g_conns];
       split; [apply trace_tail; trace_extends|];
       split; [eexists; split; [eapply lookup_insert_here; eassumption|reflexivity]|];
       intros j Hj; apply list_lookup_insert_ne; congruence).
  - unfold network_tcp_init_conn. exec_init Hr Hl.
    rewrite Hfd. exec_code Hin Hl. rewrite Hp. exec_code Hin Hl.
    rewrite Hbind. exec_code Hin Hl.
    destruct (rcvtimeo_ret os =? 0), (sndtimeo_ret os =? 0), (reuseaddr_ret os =? 0);
      exec_code Hin Hl;
      (eexists; split; [reflexivity|]; cbn [os_trace g_conns];
       split; [apply trace_tail; trace_extends|];
       split; [eexists; split; [eapply lookup_insert_here; eassumption|reflexivity]|];
       intros j Hj; apply list_lookup_insert_ne; congruence).
Qed.

Lemma after_first_init_slot : next_slot_free after_first_init conn_zero.
Proof.
  unfold next_slot_free. change (g_conn_count after_first_init) with 1.
  split; [lia|]. split; reflexivity.
Qed.

Lemma init_bind_failure_witness :
  exists m',
    network_udp_init_conn (P := linux_le) 13568 true (reply_bind_conflict 4) after_first_init
    = Returned (-1) m'
    /\ g_conns m' !! 0%nat = g_conns after_first_init !! 0%nat
    /\ (state <$> g_conns m' !! 0%nat) = Some NETWORK_CONN_STATE_DISCONNECTED.
Proof.
  destruct (init_bind_failure (H := linux_le) 13568 true (reply_bind_conflict 4)
              after_first_init conn_zero after_first_init_slot
              ltac:(lia) ltac:(simpl; lia) eq_refl
              network_udp_init_conn (or_introl eq_refl))
    as (m' & Hrun & _ & _ & Hframe).
  exists m'. split; [exact Hrun|].
  assert (Hne : 0%nat <> Z.to_nat (g_conn_count after_first_init))
    by (change (g_conn_count after_first_init) with 1; simpl; lia).
  rewrite (Hframe 0%nat Hne). split; reflexivity.
Defined.

(** ** Contract violations *)

Ltac unfold_ops :=
  unfold exec, network_udp_connect, network_udp_send, network_udp_receive,
    network_udp_disconnect, network_udp_free, network_tcp_connect, network_tcp_send,
    network_tcp_receive, network_tcp_disconnect, network_tcp_free;
  unfold network_udp_connect.

Ltac split_replies Hin Hl :=
  repeat match goal with
         | |- context [if ?b then _ else _] => destruct b eqn:?; exec_code Hin Hl
         end.

Lemma exec_invalid_handle `{Platform} (k : call) (conn_id : Z) (m : machine) :
  handle_of k = Some conn_id -> int_range conn_id -> ~ 0 <= conn_id < 32 ->
  exec k m = Killed NullDereference m.
Proof.
  intros Hk Hi Hr.
  destruct k; simpl in Hk; try discriminate; injection Hk as ->;
    unfold_ops; rewrite (get_network_conn_invalid _ Hi Hr); reflexivity.
Qed.

Lemma exec_wrong_state `{Platform} (k : call) (conn_id : Z) (m : machine) (c : network_conn) :
  handle_of k = Some conn_id -> 0 <= conn_id < 32 ->
  g_conns m !! Z.to_nat conn_id = Some c ->
  spec_required_state k c = false ->
  exec k m = Killed AssertionFailed m.
Proof.
  intros Hk Hr Hl Hreq.
  destruct c as [f sv st me oth sl].
  destruct k; simpl in Hk; try discriminate; injection Hk as ->;
    destruct st, sv; simpl in Hreq; try discriminate;
    unfold_ops; exec_at Hr Hl; reflexivity.
Qed.

Lemma exec_right_state `{Platform} (k : call) (conn_id : Z) (m : machine) (c : network_conn) :
  handle_of k = Some conn_id -> 0 <= conn_id < 32 ->
  g_conns m !! Z.to_nat conn_id = Some c ->
  spec_required_state k c = true ->
  exists r m', exec k m = Returned r m'.
Proof.
  intros Hk Hr Hl Hreq.
  destruct c as [f sv st me oth sl].
  destruct k; simpl in Hk; try discriminate; injection Hk as ->;
    destruct st, sv; simpl in Hreq; try discriminate;
    unfold_ops; exec_at Hr Hl; split_replies Hin Hl; eexists _, _; reflexivity.
Qed.

(** C3. Every operation that takes a handle stops the program before doing
    anything else when the handle is outside 0..31 (the load through the
    NULL pointer of [get_network_conn] faults) or when the record is not in
    the state the operation requires (the assertion fails); in both cases
    nothing was written and no call to the operating system was made.  The
    operation returns exactly when the record is in the required state. *)
Theorem contract_violation_is_fatal `{Platform} (k : call) (conn_id : Z) (m : machine) :
  handle_of k = Some conn_id ->
  int_range conn_id ->
  (~ 0 <= conn_id < 32 -> exec k m = Killed NullDereference m)
  /\ (forall c, 0 <= conn_id < 32 -> g_conns m !! Z.to_nat conn_id = Some c ->
        spec_required_state k c = false -> exec k m = Killed AssertionFailed m)
  /\ (forall c, 0 <= conn_id < 32 -> g_conns m !! Z.to_nat conn_id = Some c ->
        spec_required_state k c = true -> exists r m', exec k m = Returned r m').
Proof.
  intros Hk Hi. split; [|split].
  - intros Hr. eapply exec_invalid_handle; eassumption.
  - intros c Hr Hl Hreq. eapply exec_wrong_state; eassumption.
  - intros c Hr Hl Hreq. eapply exec_right_state; eassumption.
Qed.

Lemma contract_violation_is_fatal_witness :
  exec (P := linux_le) (UdpSend 32 [] 0 0) (machine_with udp_server_waiting)
    = Killed NullDereference (machine_with udp_server_waiting)
  /\ exec (P := linux_le) (UdpSend 0 [] 0 0) (machine_with udp_server_waiting)
    = Killed AssertionFailed (machine_with udp_server_waiting).
Proof.
  split.
  - destruct (contract_violation_is_fatal (H := linux_le) (UdpSend 32 [] 0 0) 32
                (machine_with udp_server_waiting) eq_refl
                ltac:(unfold int_range; lia)) as [Hnull _].
    apply Hnull. lia.
  - destruct (contract_violation_is_fatal (H := linux_le) (UdpSend 0 [] 0 0) 0
                (machine_with udp_server_waiting) eq_refl
                ltac:(unfold int_range; lia)) as (_ & Hstate & _).
    apply (Hstate udp_server_waiting); [lia|reflexivity|reflexivity].
Defined.

(** ** What an init call does to the table *)

Ltac init_done :=
  eexists _, _, _; split; [reflexivity|]; cbn [g_conn_count g_conns os_trace];
  split; [apply to_int_succ; assumption|];
  split; [reflexivity|];
  split; [trace_extends|];
  first [ left; split; [reflexivity|]; split; [lia|]; f_equal; lia
        | right; left; split; [reflexivity|]; split; [lia|]; split; [lia|];
          split; [lia|reflexivity]
        | right; right; split; [reflexivity|]; split; [lia|reflexivity] ].

Lemma udp_init_returns `{Platform} port server os m c :
  next_slot_free m c ->
  init_returned port server os m c (network_udp_init_conn port server os m).
Proof.
  intros (Hr & Hl & Hs).
  destruct c as [f sv st me oth sl]; simpl in Hs; subst st.
  unfold init_returned, conn_after_init, network_udp_init_conn. exec_init Hr Hl.
  destruct (socket_ret os =? -1) eqn:Hfd; exec_code Hin Hl; [init_done|].
  destruct (rcvtimeo_ret os =? 0), (sndtimeo_ret os =? 0); exec_code Hin Hl;
    (destruct (0 <? port) eqn:Hport; exec_code Hin Hl;
     [destruct (bind_ret os =? -1) eqn:Hbind; exec_code Hin Hl|]; init_done).
Qed.

Lemma tcp_init_returns `{Platform} port server os m c :
  next_slot_free m c ->
  init_returned port false os m c (network_tcp_init_conn port server os m).
Proof.
  intros (Hr & Hl & Hs).
  destruct c as [f sv st me oth sl]; simpl in Hs; subst st.
  unfold init_returned, conn_after_init, network_tcp_init_conn. exec_init Hr Hl.
  destruct (socket_ret os =? -1) eqn:Hfd; exec_code Hin Hl; [init_done|].
  destruct (rcvtimeo_ret os =? 0), (sndtimeo_ret os =? 0), (reuseaddr_ret os =? 0);
    exec_code Hin Hl;
    (destruct (0 <? port) eqn:Hport; exec_code Hin Hl;
     [destruct (bind_ret os =? 0) eqn:Hbind; exec_code Hin Hl|]; init_done).
Qed.

(** An init call that returns had a free slot inside the table to work on. *)
Lemma init_returned_slot `{Platform} port server os m r m' :
  network_udp_init_conn port server os m = Returned r m'
  \/ network_tcp_init_conn port server os m = Returned r m' ->
  exists c, next_slot_free m c.
Proof.
  unfold network_udp_init_conn, network_tcp_init_conn, next_slot_free.
  intros Hrun.
  destruct (in_table (g_conn_count m)) eqn:Hin;
    [|destruct Hrun as [Hrun|Hrun]; revert Hrun; exec_step; rewrite Hin; discriminate].
  destruct (g_conns m !! Z.to_nat (g_conn_count m)) as [c|] eqn:Hl;
    [|destruct Hrun as [Hrun|Hrun]; revert Hrun; exec_step; rewrite Hin, Hl; discriminate].
  exists c. split; [apply in_table_range; assumption|]. split; [reflexivity|].
  destruct c as [f sv [] me oth sl]; [reflexivity| |];
    destruct Hrun as [Hrun|Hrun]; revert Hrun; exec_step; rewrite Hin, Hl; discriminate.
Qed.

(** ** Handle allocation *)

Lemma run_cons `{Platform} (k : call) (ks : list call) (m : machine) :
  run (k :: ks) m =
    match exec k m with
    | Returned r m' =>
        match run ks m' with
        | Returned rs m'' => Returned (r :: rs) m''
        | Killed f m'' => Killed f m''
        | Undefined => Undefined
        end
    | Killed f m' => Killed f m'
    | Undefined => Undefined
    end.
Proof. reflexivity. Qed.

Lemma fresh_from_start : fresh_from machine_start.
Proof.
  split; [simpl; lia|]. split; [reflexivity|].
  intros j c _ Hl. apply lookup_replicate in Hl as [-> _]. reflexivity.
Qed.

Lemma fresh_from_slot m :
  fresh_from m -> g_conn_count m < 32 -> exists c, next_slot_free m c.
Proof.
  intros (Hc & Hlen & Hfree) Hlt.
  destruct (lookup_lt_is_Some_2 (g_conns m) (Z.to_nat (g_conn_count m))) as [c Hl];
    [lia|].
  exists c. split; [lia|]. split; [assumption|].
  eapply Hfree; [|eassumption]. lia.
Qed.

Lemma fresh_from_step `{Platform} port server os m c r m' :
  fresh_from m ->
  init_returned port server os m c (Returned r m') ->
  0 <= g_conn_count m < 32 ->
  fresh_from m' /\ g_conn_count m' = g_conn_count m + 1.
Proof.
  intros (Hc & Hlen & Hfree) (r0 & m0 & c' & Heq & Hcnt & Htab & _ & _) Hr.
  injection Heq as <- <-.
  split; [|assumption]. split; [lia|]. rewrite Htab. split.
  - rewrite length_insert. assumption.
  - intros j cj Hj Hl. rewrite list_lookup_insert_ne in Hl by lia.
    eapply Hfree; [|eassumption]. lia.
Qed.

Lemma exec_init_full `{Platform} k m :
  is_init k = true -> g_conn_count m = 32 -> exec k m = Undefined.
Proof.
  intros Hk Hc. destruct k; try discriminate; simpl;
    unfold network_udp_init_conn, network_tcp_init_conn; exec_step;
    rewrite Hc; reflexivity.
Qed.

Lemma exec_init_returns `{Platform} k m :
  is_init k = true -> fresh_from m -> g_conn_count m < 32 ->
  exists r m', exec k m = Returned r m'
    /\ fresh_from m' /\ g_conn_count m' = g_conn_count m + 1.
Proof.
  intros Hk Hf Hlt. destruct (fresh_from_slot m Hf Hlt) as [c Hslot].
  assert (Hr : 0 <= g_conn_count m < 32) by (destruct Hf; lia).
  destruct k as [port sv os| | | | | |port sv os| | | | |]; try discriminate; simpl.
  - pose proof (udp_init_returns port sv os m c Hslot) as Hret.
    destruct Hret as (r & m' & c' & Heq & Hrest). rewrite Heq.
    exists r, m'. split; [reflexivity|].
    eapply fresh_from_step; [eassumption| |assumption].
    exists r, m', c'. split; [reflexivity|exact Hrest].
  - pose proof (tcp_init_returns port sv os m c Hslot) as Hret.
    destruct Hret as (r & m' & c' & Heq & Hrest). rewrite Heq.
    exists r, m'. split; [reflexivity|].
    eapply fresh_from_step; [eassumption| |assumption].
    exists r, m', c'. split; [reflexivity|exact Hrest].
Qed.

Lemma successes_failures rs : (successes rs + failures rs)%nat = length rs.
Proof.
  unfold successes, failures. induction rs as [|r rs IH]; [reflexivity|].
  rewrite !filter_cons. destruct (decide (r = -1)), (decide (r <> -1));
    simpl; try contradiction; lia.
Qed.

(** A run of init calls that returns has advanced the counter by one per
    call and never past the capacity. *)
Lemma run_inits_returned `{Platform} ks : forall m rs m',
  forallb is_init ks = true -> fresh_from m ->
  run ks m = Returned rs m' ->
  fresh_from m'
  /\ g_conn_count m' = g_conn_count m + Z.of_nat (length ks)
  /\ length rs = length ks.
Proof.
  induction ks as [|k ks IH]; intros m rs m' Hks Hf Hrun.
  - injection Hrun as <- <-. simpl. split; [assumption|]. split; [lia|reflexivity].
  - simpl in Hks. apply andb_prop in Hks as [Hk Hks].
    destruct Hf as (Hc & Hrest).
    destruct (Z.eq_dec (g_conn_count m) 32) as [Hfull|Hroom].
    + simpl in Hrun. unfold bindM in Hrun at 1.
      rewrite (exec_init_full k m Hk Hfull) in Hrun. discriminate.
    + destruct (exec_init_returns k m Hk (conj Hc Hrest)) as (r & m1 & Hex & Hf1 & Hc1);
        [lia|].
      simpl in Hrun. unfold bindM in Hrun at 1. rewrite Hex in Hrun.
      unfold bindM in Hrun at 1.
      destruct (run ks m1) as [rs1 m2| |] eqn:Hrest1; try discriminate.
      injection Hrun as <- <-.
      destruct (IH m1 rs1 m2 Hks Hf1 Hrest1) as (Hf2 & Hc2 & Hlen).
      split; [assumption|]. split; [simpl length; lia|simpl; lia].
Qed.

(** Init calls on a table with room all return. *)
Lemma run_inits_returns `{Platform} ks : forall m,
  forallb is_init ks = true -> fresh_from m ->
  g_conn_count m + Z.of_nat (length ks) <= 32 ->
  exists rs m', run ks m = Returned rs m'.
Proof.
  induction ks as [|k ks IH]; intros m Hks Hf Hroom.
  - eexists _, _. reflexivity.
  - simpl in Hks. apply andb_prop in Hks as [Hk Hks]. simpl length in Hroom.
    destruct (exec_init_returns k m Hk Hf) as (r & m1 & Hex & Hf1 & Hc1); [lia|].
    destruct (IH m1 Hks Hf1) as (rs & m2 & Hrun); [lia|].
    exists (r :: rs), m2. simpl. unfold bindM at 1. rewrite Hex.
    unfold bindM at 1. rewrite Hrun. reflexivity.
Qed.

(** Only init calls move the counter. *)
Lemma exec_handle_count `{Platform} (k : call) (conn_id : Z) (m : machine) r m' :
  handle_of k = Some conn_id ->
  exec k m = Returned r m' ->
  g_conn_count m' = g_conn_count m.
Proof.
  intros Hk. destruct m as [n l t].
  destruct k; simpl in Hk; try discriminate; injection Hk as ->;
    unfold_ops; unfold get_network_conn;
    (destruct (to_unsigned conn_id <? MAX_NETWORK_CONNECTIONS);
      [|exec_step; discriminate]);
    (destruct (in_table conn_id) eqn:Hin; [|exec_step; rewrite Hin; discriminate]);
    (destruct (l !! Z.to_nat conn_id) as [c|] eqn:Hl;
      [|exec_step; rewrite Hin, Hl; discriminate]);
    destruct c as [f sv [] me oth sl]; destruct sv;
    exec_code Hin Hl; split_replies Hin Hl;
    intros Heq; first [discriminate Heq | injection Heq as <- <-; reflexivity].
Qed.

Lemma exec_init_count `{Platform} (k : call) (m : machine) r m' :
  is_init k = true ->
  exec k m = Returned r m' ->
  g_conn_count m < 32 /\ g_conn_count m' = g_conn_count m + 1.
Proof.
  intros Hk Hrun.
  destruct k as [port sv os| | | | | |port sv os| | | | |]; try discriminate;
    simpl in Hrun.
  - destruct (init_returned_slot port sv os m r m' (or_introl Hrun)) as [c Hslot].
    pose proof (udp_init_returns port sv os m c Hslot) as Hret. rewrite Hrun in Hret.
    destruct Hret as (r0 & m0 & c' & Heq & Hcnt & _). injection Heq as <- <-.
    destruct Hslot as (Hr & _). split; [lia|assumption].
  - destruct (init_returned_slot port sv os m r m' (or_intror Hrun)) as [c Hslot].
    pose proof (tcp_init_returns port sv os m c Hslot) as Hret. rewrite Hrun in Hret.
    destruct Hret as (r0 & m0 & c' & Heq & Hcnt & _). injection Heq as <- <-.
    destruct Hslot as (Hr & _). split; [lia|assumption].
Qed.

Lemma init_results_length ks : forall rs,
  length rs = length ks -> length (init_results ks rs) = inits_in ks.
Proof.
  unfold init_results, inits_in.
  induction ks as [|k ks IH]; intros [|r rs] Hlen; try discriminate; [reflexivity|].
  simpl zip. rewrite !filter_cons. cbn [fst].
  destruct (decide (is_init k = true)); simpl; rewrite IH by (simpl in Hlen; lia);
    reflexivity.
Qed.

(** In a run that returns, the counter has advanced by the number of init
    calls made, and stays within the capacity. *)
Lemma run_counts `{Platform} ks : forall m rs m',
  run ks m = Returned rs m' ->
  g_conn_count m <= 32 ->
  g_conn_count m' = g_conn_count m + Z.of_nat (inits_in ks)
  /\ g_conn_count m' <= 32
  /\ length rs = length ks.
Proof.
  unfold inits_in.
  induction ks as [|k ks IH]; intros m rs m' Hrun Hc.
  - injection Hrun as <- <-. simpl. split; [lia|]. split; [lia|reflexivity].
  - rewrite run_cons in Hrun.
    destruct (exec k m) as [r1 m1| |] eqn:Hex; try discriminate.
    destruct (run ks m1) as [rs1 m2| |] eqn:Hrest; try discriminate.
    injection Hrun as <- <-. rewrite filter_cons.
    destruct (handle_of k) as [h|] eqn:Hk.
    + pose proof (exec_handle_count k h m r1 m1 Hk Hex) as Hcnt.
      assert (Hni : is_init k <> true) by (destruct k; simpl in *; congruence).
      destruct (decide (is_init k = true)); [contradiction|].
      destruct (IH m1 rs1 m2 Hrest) as (Hc2 & Hle & Hlen); [lia|].
      split; [lia|]. split; [lia|simpl; lia].
    + assert (Hi : is_init k = true) by (destruct k; simpl in *; congruence).
      destruct (exec_init_count k m r1 m1 Hi Hex) as [Hlt Hcnt].
      destruct (decide (is_init k = true)); [|contradiction].
      destruct (IH m1 rs1 m2 Hrest) as (Hc2 & Hle & Hlen); [lia|].
      split; [simpl length; lia|]. split; [lia|simpl; lia].
Qed.

(** C10. Every init call on a free slot returns with the counter advanced
    by one, whether it succeeded or not.  A call that fails (when [socket]
    fails, or when [bind] fails) leaves its record Uninitialized, with only
    [fd] written in the first case and with the server flag and the local
    endpoint written as well in the second; a call that succeeds returns
    the old counter value as the handle.  No other operation moves the
    counter: in any run from program start that returns, the counter equals
    the number of init calls made, and the successful ones among them are at
    most 32 minus the failed ones. *)
Theorem init_consumes_handle `{Platform} :
  (forall port server os m c,
     next_slot_free m c ->
     forall init flag,
       (init = network_udp_init_conn /\ flag = server)
       \/ (init = network_tcp_init_conn /\ flag = false) ->
     exists r m' c',
       init port server os m = Returned r m'
       /\ g_conn_count m' = g_conn_count m + 1
       /\ g_conns m' = <[Z.to_nat (g_conn_count m) := c']> (g_conns m)
       /\ ((r = -1 /\ socket_ret os = -1 /\ c' = set_fd (-1) c)
           \/ (r = -1 /\ socket_ret os <> -1 /\ 0 < port /\ bind_ret os <> 0
               /\ c' = set_state NETWORK_CONN_STATE_UNITIALIZED
                         (conn_after_init (socket_ret os) port flag c))
           \/ (r = g_conn_count m /\ socket_ret os <> -1
               /\ c' = conn_after_init (socket_ret os) port flag c)))
  /\ (forall ks rs m',
        run ks machine_start = Returned rs m' ->
        g_conn_count m' = Z.of_nat (inits_in ks)
        /\ (successes (init_results ks rs) + failures (init_results ks rs)
            = inits_in ks)%nat
        /\ (successes (init_results ks rs) <= 32 - failures (init_results ks rs))%nat).
Proof.
  split.
  - intros port server os m c Hslot init flag [[-> ->]|[-> ->]].
    + destruct (udp_init_returns port server os m c Hslot)
        as (r & m' & c' & Heq & Hcnt & Htab & _ & Hcases).
      exists r, m', c'. auto.
    + destruct (tcp_init_returns port server os m c Hslot)
        as (r & m' & c' & Heq & Hcnt & Htab & _ & Hcases).
      exists r, m', c'. auto.
  - intros ks rs m' Hrun.
    destruct (run_counts ks machine_start rs m' Hrun) as (Hcnt & Hle & Hlen).
    { simpl. lia. }
    change (g_conn_count machine_start) with 0 in Hcnt.
    pose proof (successes_failures (init_results ks rs)) as Hsum.
    rewrite (init_results_length ks rs Hlen) in Hsum.
    split; [lia|]. split; lia.
Qed.

Lemma init_consumes_handle_witness :
  exists m',
    network_tcp_init_conn (P := linux_le) 0 false reply_no_socket after_first_init
    = Returned (-1) m'
    /\ g_conn_count m' = 2
    /\ (state <$> g_conns m' !! 1%nat) = Some NETWORK_CONN_STATE_UNITIALIZED.
Proof.
  destruct (init_consumes_handle (H := linux_le)) as [Hcall _].
  destruct (Hcall 0 false reply_no_socket after_first_init conn_zero
              after_first_init_slot network_tcp_init_conn false
              (or_intror (conj eq_refl eq_refl)))
    as (r & m' & c' & Hrun & Hcnt & Htab & Hcases).
  assert (Hr : r = -1 /\ c' = set_fd (-1) conn_zero).
  { destruct Hcases as [(-> & _ & ->)|[(_ & Hs & _)|(_ & Hs & _)]];
      [split; reflexivity| |]; exfalso; apply Hs; reflexivity. }
  destruct Hr as [-> ->].
  exists m'. split; [exact Hrun|]. split; [exact Hcnt|].
  rewrite Htab. reflexivity.
Defined.

(** ** Beyond the capacity *)

(** C2 (the code at the 33rd init). Whatever the first 32 init calls were and
    whatever the kernel answered them, they all return and leave the counter
    at 32; the next init call then works on [g_conns[32]], one past the end
    of the table.  No capacity check rejects it: the outcome is not a
    returned failure but an access outside the array. *)
Theorem init_beyond_capacity `{Platform} (ks : list call) (k : call) :
  length ks = 32%nat ->
  forallb is_init ks = true ->
  is_init k = true ->
  exists rs m32,
    run ks machine_start = Returned rs m32
    /\ g_conn_count m32 = 32
    /\ exec k m32 = Undefined
    /\ run (ks ++ [k]) machine_start = Undefined.
Proof.
  intros Hlen Hks Hk.
  destruct (run_inits_returns ks machine_start Hks fresh_from_start) as (rs & m32 & Hrun).
  { change (g_conn_count machine_start) with 0. lia. }
  destruct (run_inits_returned ks machine_start rs m32 Hks fresh_from_start Hrun)
    as (_ & Hcnt & _).
  change (g_conn_count machine_start) with 0 in Hcnt.
  assert (Hfull : g_conn_count m32 = 32) by lia.
  exists rs, m32. split; [assumption|]. split; [assumption|].
  split; [apply exec_init_full; assumption|].
  clear Hlen Hks Hcnt. revert rs Hrun. generalize machine_start.
  induction ks as [|k0 ks IH]; intros m0 rs Hrun.
  - injection Hrun as <- <-. simpl. unfold bindM at 1.
    rewrite (exec_init_full k m0 Hk Hfull). reflexivity.
  - simpl in Hrun |- *. unfold bindM at 1. unfold bindM in Hrun at 1.
    destruct (exec k0 m0) as [r1 m1| |]; try discriminate.
    unfold bindM at 1. unfold bindM in Hrun at 1.
    destruct (run ks m1) as [rs1 m2| |] eqn:Hrest; try discriminate.
    injection Hrun as <- <-. rewrite (IH m1 rs1 Hrest). reflexivity.
Qed.

Lemma init_beyond_capacity_witness :
  run (P := linux_le)
    (replicate 32 (UdpInit 0 false (reply_ok 3)) ++ [UdpInit 0 false (reply_ok 3)])
    machine_start
  = Undefined.
Proof.
  destruct (init_beyond_capacity (H := linux_le)
              (replicate 32 (UdpInit 0 false (reply_ok 3)))
              (UdpInit 0 false (reply_ok 3)) eq_refl eq_refl eq_refl)
    as (rs & m32 & _ & _ & _ & Hrun).
  exact Hrun.
Defined.

(** ** Handles used across transports *)

Lemma network_tcp_connect_ok `{Platform} (conn_id addr port : Z) (m : machine) (c : network_conn) :
  0 <= conn_id < 32 ->
  g_conns m !! Z.to_nat conn_id = Some c ->
  state c = NETWORK_CONN_STATE_DISCONNECTED ->
  let peer := {| sin_family := AF_INET; sin_port := port; s_addr := addr |} in
  network_tcp_connect conn_id addr port 0 m =
    Returned 0
      {| g_conn_count := g_conn_count m;
         g_conns := <[Z.to_nat conn_id :=
                       {| fd := fd c; server := server c;
                          state := NETWORK_CONN_STATE_CONNECTED;
                          sin_me := sin_me c; sin_oth := peer;
                          slen := sizeof_sockaddr_in |}]> (g_conns m);
         os_trace := os_trace m ++ [EvConnect (fd c) peer sizeof_sockaddr_in 0] |}.
Proof.
  intros Hr Hl Hs peer. subst peer. unfold network_tcp_connect.
  destruct c as [f sv st me oth sl]; simpl in Hs; subst st.
  exec_at Hr Hl. reflexivity.
Qed.

Lemma network_udp_send_ok `{Platform} (conn_id : Z) buf len r (m : machine) (c : network_conn) :
  0 <= conn_id < 32 ->
  g_conns m !! Z.to_nat conn_id = Some c ->
  state c = NETWORK_CONN_STATE_CONNECTED ->
  exists m',
    network_udp_send conn_id buf len r m = Returned (to_int r) m'
    /\ g_conns m' = g_conns m
    /\ exists ext,
         os_trace m' = (os_trace m ++ [EvSendto (fd c) buf len (sin_oth c) (slen c) r]) ++ ext.
Proof.
  intros Hr Hl Hs. unfold network_udp_send.
  destruct c as [f sv st me oth sl]; simpl in Hs; subst st.
  exec_at Hr Hl. destruct (r <? 0); exec_code Hin Hl;
    (eexists; split; [reflexivity|]; split; [reflexivity|]; cbn [os_trace fd sin_oth slen];
     trace_extends).
Qed.

Lemma network_tcp_send_ok `{Platform} (conn_id : Z) buf len r (m : machine) (c : network_conn) :
  0 <= conn_id < 32 ->
  g_conns m !! Z.to_nat conn_id = Some c ->
  state c = NETWORK_CONN_STATE_CONNECTED ->
  exists m',
    network_tcp_send conn_id buf len r m = Returned (to_int r) m'
    /\ g_conns m' = g_conns m
    /\ exists ext, os_trace m' = (os_trace m ++ [EvSend (fd c) buf len r]) ++ ext.
Proof.
  intros Hr Hl Hs. unfold network_tcp_send.
  destruct c as [f sv st me oth sl]; simpl in Hs; subst st.
  exec_at Hr Hl. destruct (r <? 0); exec_code Hin Hl;
    (eexists; split; [reflexivity|]; split; [reflexivity|]; cbn [os_trace fd sin_oth slen];
     trace_extends).
Qed.

(** A successful init: its handle is the slot, holding [conn_after_init]. *)
Lemma init_success_record `{Platform} port flag os m c r m' :
  next_slot_free m c ->
  init_returned port flag os m c (Returned r m') ->
  r <> -1 ->
  r = g_conn_count m /\ 0 <= r < 32
  /\ g_conns m' !! Z.to_nat r = Some (conn_after_init (socket_ret os) port flag c).
Proof.
  intros (Hr & Hl & _) (r0 & m0 & c' & Heq & _ & Htab & _ & Hcases) Hne.
  injection Heq as <- <-.
  destruct Hcases as [(-> & _)|[(-> & _)|(-> & _ & ->)]]; try congruence.
  split; [reflexivity|]. split; [assumption|].
  rewrite Htab. eapply lookup_insert_here; eassumption.
Qed.

(** C9. A record carries no trace of the transport that created it: a
    successful UDP init and a successful TCP init (as clients, with the same
    port and the same kernel answers) leave the same table.  The state is
    the only guard, so every operation returns on any record in the state
    it requires; in particular the handle of a TCP init goes through
    [network_udp_connect] and [network_udp_send] (a [sendto] on the TCP
    descriptor), and the handle of a UDP init through [network_tcp_connect]
    and [network_tcp_send]. *)
Theorem transport_not_checked `{Platform} :
  (forall port os m hu mu ht mt,
     network_udp_init_conn port false os m = Returned hu mu -> hu <> -1 ->
     network_tcp_init_conn port false os m = Returned ht mt -> ht <> -1 ->
     hu = ht /\ g_conns mu = g_conns mt /\ g_conn_count mu = g_conn_count mt)
  /\ (forall k conn_id m c,
        handle_of k = Some conn_id -> 0 <= conn_id < 32 ->
        g_conns m !! Z.to_nat conn_id = Some c ->
        spec_required_state k c = true ->
        exists r m', exec k m = Returned r m')
  /\ (forall port server os m h m1 addr p buf len r,
        network_tcp_init_conn port server os m = Returned h m1 -> h <> -1 ->
        exists m2 m3 ext,
          network_udp_connect h addr p m1 = Returned 0 m2
          /\ network_udp_send h buf len r m2 = Returned (to_int r) m3
          /\ os_trace m3 =
               (os_trace m1
                ++ [EvSendto (socket_ret os) buf len
                      {| sin_family := AF_INET; sin_port := p; s_addr := addr |}
                      sizeof_sockaddr_in r]) ++ ext)
  /\ (forall port server os m h m1 addr p buf len r,
        network_udp_init_conn port server os m = Returned h m1 -> h <> -1 ->
        exists m2 m3 ext,
          network_tcp_connect h addr p 0 m1 = Returned 0 m2
          /\ network_tcp_send h buf len r m2 = Returned (to_int r) m3
          /\ os_trace m3 =
               (os_trace m2 ++ [EvSend (socket_ret os) buf len r]) ++ ext).
Proof.
  split; [|split; [|split]].
  - intros port os m hu mu ht mt Hu Hune Ht Htne.
    destruct (init_returned_slot port false os m hu mu (or_introl Hu)) as [c Hslot].
    pose proof (udp_init_returns port false os m c Hslot) as Hru.
    pose proof (tcp_init_returns port false os m c Hslot) as Hrt.
    rewrite Hu in Hru. rewrite Ht in Hrt.
    destruct Hru as (r1 & m1 & c1 & Heq1 & Hcnt1 & Htab1 & _ & Hcase1).
    destruct Hrt as (r2 & m2 & c2 & Heq2 & Hcnt2 & Htab2 & _ & Hcase2).
    injection Heq1 as <- <-. injection Heq2 as <- <-.
    destruct Hcase1 as [(-> & _)|[(-> & _)|(-> & _ & ->)]]; try congruence.
    destruct Hcase2 as [(-> & _)|[(-> & _)|(-> & _ & ->)]]; try congruence.
    split; [reflexivity|]. split; congruence.
  - intros k conn_id m c Hk Hr Hl Hreq. eapply exec_right_state; eassumption.
  - intros port server os m h m1 addr p buf len r Hinit Hne.
    destruct (init_returned_slot port server os m h m1 (or_intror Hinit)) as [c Hslot].
    pose proof (tcp_init_returns port server os m c Hslot) as Hret. rewrite Hinit in Hret.
    destruct (init_success_record port false os m c h m1 Hslot Hret Hne) as (_ & Hr & Hl).
    rewrite (network_udp_connect_ok h addr p m1 _ Hr Hl eq_refl).
    match goal with
    | |- context [Returned 0 ?m2] =>
        destruct (network_udp_send_ok h buf len r m2
                    {| fd := socket_ret os; server := false;
                       state := NETWORK_CONN_STATE_CONNECTED;
                       sin_me := sin_me (conn_after_init (socket_ret os) port false c);
                       sin_oth := {| sin_family := AF_INET; sin_port := p; s_addr := addr |};
                       slen := sizeof_sockaddr_in |} Hr)
          as (m3 & Hsend & _ & ext & Htr);
          [eapply lookup_insert_here; eassumption|reflexivity|];
          exists m2, m3, ext
    end.
    split; [reflexivity|]. split; [exact Hsend|exact Htr].
  - intros port server os m h m1 addr p buf len r Hinit Hne.
    destruct (init_returned_slot port server os m h m1 (or_introl Hinit)) as [c Hslot].
    pose proof (udp_init_returns port server os m c Hslot) as Hret. rewrite Hinit in Hret.
    destruct (init_success_record port server os m c h m1 Hslot Hret Hne) as (_ & Hr & Hl).
    rewrite (network_tcp_connect_ok h addr p m1 _ Hr Hl eq_refl).
    match goal with
    | |- context [Returned 0 ?m2] =>
        destruct (network_tcp_send_ok h buf len r m2
                    {| fd := socket_ret os; server := server;
                       state := NETWORK_CONN_STATE_CONNECTED;
                       sin_me := sin_me (conn_after_init (socket_ret os) port server c);
                       sin_oth := {| sin_family := AF_INET; sin_port := p; s_addr := addr |};
                       slen := sizeof_sockaddr_in |} Hr)
          as (m3 & Hsend & _ & ext & Htr);
          [eapply lookup_insert_here; eassumption|reflexivity|];
          exists m2, m3, ext
    end.
    split; [reflexivity|]. split; [exact Hsend|exact Htr].
Qed.

Lemma transport_not_checked_witness :
  exists m2 m3 ext,
    network_udp_connect (P := linux_le) 0 16777343 13568 after_tcp_init = Returned 0 m2
    /\ network_udp_send (P := linux_le) 0 [Byte.x01] 1 1 m2 = Returned 1 m3
    /\ os_trace m3 =
         (os_trace after_tcp_init
          ++ [EvSendto 3 [Byte.x01] 1
                {| sin_family := AF_INET; sin_port := 13568; s_addr := 16777343 |} 16 1])
         ++ ext.
Proof.
  destruct (transport_not_checked (H := linux_le)) as (_ & _ & Hcross & _).
  exact (Hcross 0 false (reply_ok 3) machine_start 0 after_tcp_init
           16777343 13568 [Byte.x01] 1 1 eq_refl ltac:(lia)).
Defined.

(** ** The peer endpoint outside the Connected state *)

Lemma conn_agree_refl c : conn_agree c c.
Proof. unfold conn_agree. repeat split; reflexivity. Qed.

Lemma machine_agree_refl m : machine_agree m m.
Proof.
  split; [reflexivity|]. split; [reflexivity|].
  apply Forall2_lookup. intros i. destruct (g_conns m !! i); constructor.
  apply conn_agree_refl.
Qed.

Ltac exec_code2 Hin Hl1 Hl2 :=
  repeat (exec_step;
          change (-1 =? -1) with true;
          change (-1 =? 0) with false;
          change (0 =? 0) with true;
          rewrite ?Hin, ?list_insert_insert_eq,
            ?(lookup_insert_here _ _ _ _ Hl1), ?(lookup_insert_here _ _ _ _ Hl2),
            ?Hl1, ?Hl2).

Ltac split_replies2 Hin Hl1 Hl2 :=
  repeat match goal with
         | |- context [if ?b then _ else _] => destruct b eqn:?; exec_code2 Hin Hl1 Hl2
         end.

Ltac agree_done Hall :=
  cbn [outcome_agree]; try exact I;
  (split; [reflexivity|]);
  unfold machine_agree; cbn [g_conn_count g_conns os_trace];
  (split; [reflexivity|]); (split; [reflexivity|]);
  first [ exact Hall
        | apply Forall2_insert; [exact Hall|];
          unfold conn_agree; cbn [fd server state sin_me sin_oth slen];
          repeat split; intros; try discriminate; reflexivity ].

Lemma exec_handle_agree `{Platform} (k : call) (conn_id : Z) (m1 m2 : machine) :
  handle_of k = Some conn_id ->
  machine_agree m1 m2 ->
  outcome_agree (exec k m1) (exec k m2).
Proof.
  intros Hk (Hcnt & Htr & Hall).
  destruct m1 as [n1 l1 t1], m2 as [n2 l2 t2]. cbn [g_conn_count g_conns os_trace] in *.
  subst n2 t2.
  destruct k; simpl in Hk; try discriminate; injection Hk as ->;
    unfold_ops; unfold get_network_conn;
    (destruct (to_unsigned conn_id <? MAX_NETWORK_CONNECTIONS);
      [|exec_step; agree_done Hall]);
    (destruct (in_table conn_id) eqn:Hin; [|exec_step; rewrite Hin; exact I]);
    pose proof (proj1 (Forall2_lookup _ _ _) Hall (Z.to_nat conn_id)) as Hopt;
    (destruct (l1 !! Z.to_nat conn_id) as [c1|] eqn:Hl1;
     destruct (l2 !! Z.to_nat conn_id) as [c2|] eqn:Hl2;
     inversion Hopt as [? ? Hagree|]; subst;
     [|exec_step; rewrite Hin, Hl1, Hl2; exact I]);
    destruct c1 as [f1 sv1 st1 me1 oth1 sl1], c2 as [f2 sv2 st2 me2 oth2 sl2];
    destruct Hagree as (Hfd & Hsv & Hst & Hme & Hpeer);
    cbn [fd server state sin_me sin_oth slen] in *; subst f2 sv2 st2 me2;
    (destruct st1;
      [clear Hpeer|clear Hpeer|destruct (Hpeer eq_refl) as [<- <-]; clear Hpeer]);
    destruct sv1;
    exec_code2 Hin Hl1 Hl2; split_replies2 Hin Hl1 Hl2; agree_done Hall.
Qed.

Lemma exec_init_agree `{Platform} (k : call) (m1 m2 : machine) :
  is_init k = true ->
  machine_agree m1 m2 ->
  outcome_agree (exec k m1) (exec k m2).
Proof.
  intros Hk (Hcnt & Htr & Hall).
  destruct m1 as [n l1 t1], m2 as [n2 l2 t2]. cbn [g_conn_count g_conns os_trace] in *.
  subst n2 t2.
  destruct k; try discriminate; cbn [exec];
    unfold network_udp_init_conn, network_tcp_init_conn;
    (destruct (in_table n) eqn:Hin; [|exec_step; rewrite Hin; exact I]);
    pose proof (proj1 (Forall2_lookup _ _ _) Hall (Z.to_nat n)) as Hopt;
    (destruct (l1 !! Z.to_nat n) as [c1|] eqn:Hl1;
     destruct (l2 !! Z.to_nat n) as [c2|] eqn:Hl2;
     inversion Hopt as [? ? Hagree|]; subst;
     [|exec_step; rewrite Hin, Hl1, Hl2; exact I]);
    destruct c1 as [f1 sv1 st1 me1 oth1 sl1], c2 as [f2 sv2 st2 me2 oth2 sl2];
    destruct Hagree as (Hfd & Hsv & Hst & Hme & Hpeer);
    cbn [fd server state sin_me sin_oth slen] in *; subst f2 sv2 st2 me2;
    (destruct st1;
      [clear Hpeer|clear Hpeer|destruct (Hpeer eq_refl) as [<- <-]; clear Hpeer]);
    exec_code2 Hin Hl1 Hl2; split_replies2 Hin Hl1 Hl2; agree_done Hall.
Qed.

Lemma exec_agree `{Platform} (k : call) (m1 m2 : machine) :
  machine_agree m1 m2 -> outcome_agree (exec k m1) (exec k m2).
Proof.
  intros Hm. destruct (handle_of k) as [h|] eqn:Hk.
  - eapply exec_handle_agree; eassumption.
  - apply exec_init_agree; [|assumption]. destruct k; try discriminate; reflexivity.
Qed.

(** C4 (as stated, refuted). After init, connect and disconnect over UDP the
    record is Disconnected and still holds the peer's address and port; so
    does a record whose TCP connect failed. *)
Lemma peer_kept_when_disconnected :
  (run (P := linux_le) udp_connect_disconnect machine_start
     = Returned [0; 0; 0] (machine_after udp_connect_disconnect)
   /\ (state <$> g_conns (machine_after udp_connect_disconnect) !! 0%nat)
      = Some NETWORK_CONN_STATE_DISCONNECTED
   /\ (sin_oth <$> g_conns (machine_after udp_connect_disconnect) !! 0%nat)
      = Some {| sin_family := AF_INET; sin_port := 13568; s_addr := 16777343 |}
   /\ ~ peer_only_when_connected (machine_after udp_connect_disconnect))
  /\ (run (P := linux_le) tcp_connect_refused machine_start
        = Returned [0; -1] (machine_after tcp_connect_refused)
      /\ (state <$> g_conns (machine_after tcp_connect_refused) !! 0%nat)
         = Some NETWORK_CONN_STATE_DISCONNECTED
      /\ ~ peer_only_when_connected (machine_after tcp_connect_refused)).
Proof.
  split.
  - split; [reflexivity|]. split; [reflexivity|]. split; [reflexivity|].
    intros Hclaim.
    specialize (Hclaim 0%nat _ eq_refl). simpl in Hclaim.
    assert (Hne : NETWORK_CONN_STATE_DISCONNECTED <> NETWORK_CONN_STATE_CONNECTED)
      by discriminate.
    specialize (Hclaim Hne). discriminate Hclaim.
  - split; [reflexivity|]. split; [reflexivity|].
    intros Hclaim.
    specialize (Hclaim 0%nat _ eq_refl). simpl in Hclaim.
    assert (Hne : NETWORK_CONN_STATE_DISCONNECTED <> NETWORK_CONN_STATE_CONNECTED)
      by discriminate.
    specialize (Hclaim Hne). discriminate Hclaim.
Qed.

(** C4 (amended). The peer endpoint is consulted only while the record is
    Connected: run any sequence of calls on two machines that differ at most
    in the peer fields ([sin_oth], [slen]) of records that are not
    Connected; then both runs stop the same way, return the same results,
    make the same calls to the operating system, and leave machines that
    again differ at most in the peer fields of records that are not
    Connected. *)
Theorem peer_unused_unless_connected `{Platform} (ks : list call) (m1 m2 : machine) :
  machine_agree m1 m2 ->
  outcome_agree (run ks m1) (run ks m2).
Proof.
  revert m1 m2. induction ks as [|k ks IH]; intros m1 m2 Hm.
  - simpl. split; [reflexivity|assumption].
  - rewrite !run_cons.
    pose proof (exec_agree k m1 m2 Hm) as Hk.
    destruct (exec k m1) as [r1 m1'|f1 m1'|], (exec k m2) as [r2 m2'|f2 m2'|];
      simpl in Hk; try contradiction; try exact Hk.
    destruct Hk as [<- Hm'].
    pose proof (IH m1' m2' Hm') as Hrest.
    destruct (run ks m1') as [rs1 m1''|g1 m1''|], (run ks m2') as [rs2 m2''|g2 m2''|];
      simpl in Hrest; try contradiction; try exact Hrest.
    destruct Hrest as [<- Hm'']. simpl. split; [reflexivity|assumption].
Qed.

Lemma machine_agree_scrub m : machine_agree m (scrub m).
Proof.
  split; [reflexivity|]. split; [reflexivity|].
  unfold scrub. cbn [g_conns set_g_conns].
  induction (g_conns m) as [|c l IH]; constructor; [|exact IH].
  unfold conn_agree, scrub_peer.
  destruct c as [f sv [] me oth sl]; cbn; repeat split; intros; discriminate.
Qed.

Lemma peer_unused_unless_connected_witness :
  outcome_agree
    (run (P := linux_le) [UdpConnect 0 33554559 13568; UdpSend 0 [Byte.x01] 1 1]
       (machine_after udp_connect_disconnect))
    (run (P := linux_le) [UdpConnect 0 33554559 13568; UdpSend 0 [Byte.x01] 1 1]
       (scrub (machine_after udp_connect_disconnect))).
Proof.
  apply (peer_unused_unless_connected (H := linux_le)
           [UdpConnect 0 33554559 13568; UdpSend 0 [Byte.x01] 1 1]
           (machine_after udp_connect_disconnect)
           (scrub (machine_after udp_connect_disconnect))).
  apply machine_agree_scrub.
Defined.

(** ** Further properties: handles and frames *)

(** X1. [get_network_conn] accepts exactly the handles 0..31: for every
    [int] outside that range, negative ones included (the comparison is made
    on the unsigned value), it returns NULL. *)
Theorem get_network_conn_bounds (conn_id : Z) :
  int_range conn_id ->
  (0 <= conn_id < 32 -> get_network_conn conn_id = Elem conn_id)
  /\ (~ 0 <= conn_id < 32 -> get_network_conn conn_id = NULL).
Proof.
  intros Hi. split; intros Hr.
  - apply get_network_conn_valid. assumption.
  - apply get_network_conn_invalid; assumption.
Qed.

Lemma get_network_conn_bounds_witness :
  get_network_conn (-1) = NULL /\ get_network_conn 31 = Elem 31.
Proof.
  split.
  - apply (get_network_conn_bounds (-1)); unfold int_range; lia.
  - apply (get_network_conn_bounds 31); unfold int_range; lia.
Defined.

Ltac frame_done Hin Hl :=
  cbn [g_conn_count g_conns];
  (split; [apply in_table_range; exact Hin|]);
  (split; [reflexivity|]);
  (split; [rewrite ?length_insert; reflexivity|]);
  (split; [intros j Hj; rewrite ?list_lookup_insert_ne by congruence; reflexivity|]);
  eexists _, _; (split; [first [exact Hl | reflexivity]|]);
  (split; [first [exact Hl | eapply lookup_insert_here; exact Hl]|]);
  cbn; repeat split.

Lemma exec_handle_frame `{Platform} (k : call) (conn_id : Z) (m : machine) r m' :
  handle_of k = Some conn_id ->
  exec k m = Returned r m' ->
  0 <= conn_id < 32
  /\ g_conn_count m' = g_conn_count m
  /\ length (g_conns m') = length (g_conns m)
  /\ (forall j, j <> Z.to_nat conn_id -> g_conns m' !! j = g_conns m !! j)
  /\ exists c c',
       g_conns m !! Z.to_nat conn_id = Some c
       /\ g_conns m' !! Z.to_nat conn_id = Some c'
       /\ fd c' = fd c /\ server c' = server c /\ sin_me c' = sin_me c
       /\ lifecycle_step (state c) (state c') = true.
Proof.
  intros Hk. destruct m as [n l t]. cbn [g_conn_count g_conns].
  destruct k; simpl in Hk; try discriminate; injection Hk as ->;
    unfold_ops; unfold get_network_conn;
    (destruct (to_unsigned conn_id <? MAX_NETWORK_CONNECTIONS);
      [|exec_step; discriminate]);
    (destruct (in_table conn_id) eqn:Hin; [|exec_step; rewrite Hin; discriminate]);
    (destruct (l !! Z.to_nat conn_id) as [c|] eqn:Hl;
      [|exec_step; rewrite Hin, Hl; discriminate]);
    destruct c as [f sv [] me oth sl]; destruct sv;
    exec_code Hin Hl; split_replies Hin Hl;
    intros Heq; first [discriminate Heq | injection Heq as <- <-; frame_done Hin Hl].
Qed.

(** X2. An operation on a handle that returns has worked on a handle within
    0..31 and has written nothing but that handle's record: the counter, the
    size of the table and every other record are as before.  In its own
    record it never touches the descriptor, the server flag or the local
    endpoint, and the state moves only along connect, disconnect or free (or
    stays); an Uninitialized record is never brought to life this way. *)
Theorem handle_op_frame `{Platform} (k : call) (conn_id : Z) (m : machine) r m' :
  handle_of k = Some conn_id ->
  exec k m = Returned r m' ->
  0 <= conn_id < 32
  /\ g_conn_count m' = g_conn_count m
  /\ length (g_conns m') = length (g_conns m)
  /\ (forall j, j <> Z.to_nat conn_id -> g_conns m' !! j = g_conns m !! j)
  /\ exists c c',
       g_conns m !! Z.to_nat conn_id = Some c
       /\ g_conns m' !! Z.to_nat conn_id = Some c'
       /\ fd c' = fd c /\ server c' = server c /\ sin_me c' = sin_me c
       /\ lifecycle_step (state c) (state c') = true.
Proof. apply exec_handle_frame. Qed.

Lemma handle_op_frame_witness :
  exists m',
    exec (P := linux_le) (UdpFree 0) after_first_init = Returned 0 m'
    /\ g_conn_count m' = 1
    /\ g_conns m' !! 1%nat = Some conn_zero.
Proof.
  assert (Hrun : exists m', exec (P := linux_le) (UdpFree 0) after_first_init = Returned 0 m')
    by (eexists; reflexivity).
  destruct Hrun as [m' Hrun]. exists m'. split; [exact Hrun|].
  destruct (handle_op_frame (H := linux_le) (UdpFree 0) 0 after_first_init 0 m'
              eq_refl Hrun) as (_ & Hcnt & _ & Hothers & _).
  split; [exact Hcnt|].
  rewrite (Hothers 1%nat ltac:(simpl; lia)). reflexivity.
Defined.

(** ** Further properties: the table in every run *)

Lemma lifecycle_step_alive s s' :
  lifecycle_step s s' = true -> s <> NETWORK_CONN_STATE_UNITIALIZED.
Proof. destruct s, s'; simpl; congruence. Qed.

Lemma exec_handle_fresh `{Platform} (k : call) (conn_id : Z) (m : machine) r m' :
  handle_of k = Some conn_id ->
  fresh_from m ->
  exec k m = Returned r m' ->
  fresh_from m'.
Proof.
  intros Hk (Hc & Hlen & Hfree) Hrun.
  destruct (exec_handle_frame k conn_id m r m' Hk Hrun)
    as (Hr & Hcnt & Hlen' & Hothers & c & c' & Hl & _ & _ & _ & _ & Hstep).
  apply lifecycle_step_alive in Hstep.
  rewrite <- Hcnt in Hc. split; [rewrite Hcnt in *; lia|].
  split; [congruence|].
  intros j cj Hj Hlj. rewrite Hcnt in Hj.
  destruct (decide (j = Z.to_nat conn_id)) as [->|Hne].
  - exfalso. apply Hstep. eapply Hfree; eassumption.
  - rewrite (Hothers j Hne) in Hlj. eapply Hfree; eassumption.
Qed.

Lemma handle_or_init (k : call) :
  (exists h, handle_of k = Some h /\ is_init k = false)
  \/ (handle_of k = None /\ is_init k = true).
Proof. destruct k; simpl; eauto. Qed.

Lemma exec_fresh `{Platform} (k : call) (m : machine) r m' :
  fresh_from m -> exec k m = Returned r m' -> fresh_from m'.
Proof.
  intros Hf Hrun. destruct (handle_or_init k) as [(h & Hk & _)|(_ & Hi)].
  - eapply exec_handle_fresh; eassumption.
  - destruct (exec_init_count k m r m' Hi Hrun) as [Hlt _].
    destruct (exec_init_returns k m Hi Hf Hlt) as (r0 & m0 & Hex & Hf0 & _).
    rewrite Hrun in Hex. injection Hex as <- <-. exact Hf0.
Qed.

Lemma run_fresh `{Platform} ks : forall m rs m',
  fresh_from m -> run ks m = Returned rs m' -> fresh_from m'.
Proof.
  induction ks as [|k ks IH]; intros m rs m' Hf Hrun.
  - injection Hrun as <- <-. exact Hf.
  - rewrite run_cons in Hrun.
    destruct (exec k m) as [r1 m1| |] eqn:Hex; try discriminate.
    destruct (run ks m1) as [rs1 m2| |] eqn:Hrest; try discriminate.
    injection Hrun as <- <-.
    eapply IH; [|eassumption]. eapply exec_fresh; eassumption.
Qed.

(** X3. Whatever calls have been made since program start, if they all
    returned then the table still has 32 records, the counter is within
    0..32 and every slot from the counter on is Uninitialized.  So the
    assertion at the top of an init call never fails: the call returns while
    the counter is below 32, and at 32 it leaves the table. *)
Theorem slots_from_counter_unused `{Platform} (ks : list call) (rs : list Z) (m : machine) :
  run ks machine_start = Returned rs m ->
  fresh_from m
  /\ forall k, is_init k = true ->
       (g_conn_count m < 32 -> exists r m', exec k m = Returned r m')
       /\ (g_conn_count m = 32 -> exec k m = Undefined).
Proof.
  intros Hrun.
  pose proof (run_fresh ks machine_start rs m fresh_from_start Hrun) as Hf.
  split; [exact Hf|]. intros k Hk. split.
  - intros Hlt. destruct (exec_init_returns k m Hk Hf Hlt) as (r & m' & Hex & _).
    eauto.
  - intros Hfull. apply exec_init_full; assumption.
Qed.

Lemma slots_from_counter_unused_witness :
  fresh_from (machine_after udp_connect_disconnect).
Proof.
  destruct (slots_from_counter_unused (H := linux_le) udp_connect_disconnect [0; 0; 0]
              (machine_after udp_connect_disconnect) eq_refl) as [Hf _].
  exact Hf.
Defined.

(** ** Further properties: handle numbers *)

Lemma inits_in_cons (k : call) (ks : list call) :
  inits_in (k :: ks) = ((if is_init k then 1 else 0) + inits_in ks)%nat.
Proof.
  unfold inits_in. rewrite filter_cons.
  destruct (is_init k); destruct (decide _); simpl; congruence.
Qed.

Lemma inits_in_take_lt (ks : list call) : forall i j k,
  (i < j)%nat -> ks !! i = Some k -> is_init k = true ->
  (inits_in (take i ks) < inits_in (take j ks))%nat.
Proof.
  induction ks as [|k0 ks IH]; intros i j k Hij Hl Hk; [discriminate|].
  destruct j as [|j]; [lia|]. destruct i as [|i].
  - simpl in Hl. injection Hl as ->. simpl take. rewrite inits_in_cons, Hk.
    unfold inits_in at 1. simpl. lia.
  - simpl in Hl. simpl take. rewrite !inits_in_cons.
    specialize (IH i j k ltac:(lia) Hl Hk). lia.
Qed.

Lemma exec_init_handle `{Platform} (k : call) (m : machine) r m' :
  is_init k = true ->
  exec k m = Returned r m' ->
  r = -1 \/ r = g_conn_count m.
Proof.
  intros Hk Hrun.
  destruct k as [port sv os| | | | | |port sv os| | | | |]; try discriminate;
    simpl in Hrun.
  - destruct (init_returned_slot port sv os m r m' (or_introl Hrun)) as [c Hslot].
    pose proof (udp_init_returns port sv os m c Hslot) as Hret. rewrite Hrun in Hret.
    destruct Hret as (r0 & m0 & c' & Heq & _ & _ & _ & Hcases). injection Heq as <- <-.
    destruct Hcases as [(-> & _)|[(-> & _)|(-> & _)]]; auto.
  - destruct (init_returned_slot port sv os m r m' (or_intror Hrun)) as [c Hslot].
    pose proof (tcp_init_returns port sv os m c Hslot) as Hret. rewrite Hrun in Hret.
    destruct Hret as (r0 & m0 & c' & Heq & _ & _ & _ & Hcases). injection Heq as <- <-.
    destruct Hcases as [(-> & _)|[(-> & _)|(-> & _)]]; auto.
Qed.

Lemma exec_count_step `{Platform} (k : call) (m : machine) r m' :
  exec k m = Returned r m' ->
  g_conn_count m' = g_conn_count m + (if is_init k then 1 else 0).
Proof.
  intros Hrun. destruct (handle_or_init k) as [(h & Hk & ->)|(_ & Hi)].
  - rewrite (exec_handle_count k h m r m' Hk Hrun). lia.
  - rewrite Hi. apply (exec_init_count k m r m' Hi Hrun).
Qed.

Lemma run_init_handle `{Platform} ks : forall m0 rs m i k r,
  run ks m0 = Returned rs m ->
  ks !! i = Some k -> is_init k = true -> rs !! i = Some r -> r <> -1 ->
  r = g_conn_count m0 + Z.of_nat (inits_in (take i ks)).
Proof.
  induction ks as [|k0 ks IH]; intros m0 rs m i k r Hrun Hk Hi Hr Hne; [discriminate|].
  rewrite run_cons in Hrun.
  destruct (exec k0 m0) as [r1 m1| |] eqn:Hex; try discriminate.
  destruct (run ks m1) as [rs1 m2| |] eqn:Hrest; try discriminate.
  injection Hrun as <- <-.
  destruct i as [|i]; simpl in Hk, Hr.
  - injection Hk as ->. injection Hr as ->.
    destruct (exec_init_handle k m0 r m1 Hi Hex) as [->| ->]; [congruence|].
    unfold inits_in. simpl. lia.
  - rewrite (IH m1 rs1 m2 i k r Hrest Hk Hi Hr Hne).
    rewrite (exec_count_step k0 m0 r1 m1 Hex).
    simpl take. rewrite inits_in_cons. destruct (is_init k0); lia.
Qed.

(** X4. In a run from program start, a successful init returns as handle
    the number of init calls made before it (successful or not, ever freed
    or not).  So handles only grow: two successful inits never return the
    same handle, and a number once given out is not given out again. *)
Theorem init_handle_is_call_number `{Platform} (ks : list call) (rs : list Z) (m : machine) :
  run ks machine_start = Returned rs m ->
  (forall i k r,
     ks !! i = Some k -> is_init k = true -> rs !! i = Some r -> r <> -1 ->
     r = Z.of_nat (inits_in (take i ks)))
  /\ (forall i j ki kj ri rj,
        (i < j)%nat ->
        ks !! i = Some ki -> is_init ki = true -> rs !! i = Some ri -> ri <> -1 ->
        ks !! j = Some kj -> is_init kj = true -> rs !! j = Some rj -> rj <> -1 ->
        ri < rj).
Proof.
  intros Hrun.
  assert (Hnum : forall i k r,
             ks !! i = Some k -> is_init k = true -> rs !! i = Some r -> r <> -1 ->
             r = Z.of_nat (inits_in (take i ks))).
  { intros i k r Hk Hi Hr Hne.
    rewrite (run_init_handle ks machine_start rs m i k r Hrun Hk Hi Hr Hne).
    simpl. lia. }
  split; [exact Hnum|].
  intros i j ki kj ri rj Hij Hki Hii Hri Hnei Hkj Hij' Hrj Hnej.
  rewrite (Hnum i ki ri Hki Hii Hri Hnei), (Hnum j kj rj Hkj Hij' Hrj Hnej).
  pose proof (inits_in_take_lt ks i j ki Hij Hki Hii). lia.
Qed.

Lemma init_handle_is_call_number_witness :
  run (P := linux_le) init_free_init machine_start
    = Returned [0; 0; 1] (machine_after init_free_init)
  /\ (1 : Z) = Z.of_nat (inits_in (take 2 init_free_init)).
Proof.
  split; [reflexivity|].
  destruct (init_handle_is_call_number (H := linux_le) init_free_init [0; 0; 1]
              (machine_after init_free_init) eq_refl) as [Hnum _].
  exact (Hnum 2%nat (UdpInit 0 true (reply_ok 3)) 1 eq_refl eq_refl eq_refl ltac:(lia)).
Defined.

(** ** Further properties: what each transfer does *)

Lemma to_int_id r : int_range r -> to_int r = r.
Proof.
  unfold int_range, to_int. intros Hr.
  rewrite Z.mod_small by lia. lia.
Qed.

Ltac same_machine :=
  unfold with_log, with_slot, connected_to, peer_of;
  cbn [fd server state sin_me sin_oth slen];
  rewrite <- ?app_assoc, ?app_nil_r; reflexivity.

(** X5. A send on a Connected record makes exactly one [sendto] (UDP, to
    the stored peer) or [send] (TCP) on the record's descriptor, logs
    [perror] if and only if the kernel's answer is negative, dumps the
    buffer, and returns the kernel's answer (unchanged when it fits an
    [int]).  It changes neither the table nor the counter, whether the
    transfer failed or not. *)
Theorem send_effect `{Platform}
    (conn_id : Z) (buf : list Byte.byte) (len r : Z) (m : machine) (c : network_conn) :
  0 <= conn_id < 32 ->
  g_conns m !! Z.to_nat conn_id = Some c ->
  state c = NETWORK_CONN_STATE_CONNECTED ->
  let diagnostic := if r <? 0 then [EvPerror "sendto"] else [] in
  let dump := [EvHexdump (LineSent r len (ntohs (sin_port (sin_oth c)))) buf len] in
  network_udp_send conn_id buf len r m =
    Returned (to_int r)
      (with_log ([EvSendto (fd c) buf len (sin_oth c) (slen c) r] ++ diagnostic ++ dump) m)
  /\ network_tcp_send conn_id buf len r m =
    Returned (to_int r)
      (with_log ([EvSend (fd c) buf len r] ++ diagnostic ++ dump) m)
  /\ (int_range r -> to_int r = r).
Proof.
  intros Hr Hl Hs diagnostic dump. subst diagnostic dump.
  destruct c as [f sv st me oth sl]; simpl in Hs; subst st.
  unfold network_udp_send, network_tcp_send.
  split; [|split; [|apply to_int_id]];
    exec_at Hr Hl; destruct (r <? 0); exec_code Hin Hl; same_machine.
Qed.

Lemma send_effect_witness :
  network_tcp_send (P := linux_le) 0 [Byte.x01; Byte.x02] 2 (-1)
    (machine_with tcp_client_connected)
  = Returned (-1)
      (with_log [EvSend 3 [Byte.x01; Byte.x02] 2 (-1); EvPerror "sendto";
                 EvHexdump (LineSent (-1) 2 0) [Byte.x01; Byte.x02] 2]
         (machine_with tcp_client_connected)).
Proof.
  destruct (send_effect (H := linux_le) 0 [Byte.x01; Byte.x02] 2 (-1)
              (machine_with tcp_client_connected) tcp_client_connected
              ltac:(lia) eq_refl eq_refl) as (_ & Htcp & _).
  exact Htcp.
Defined.

(** X6. A successful receive on a Connected record makes exactly one read
    on the record's descriptor, dumps the received bytes, never calls
    [perror] and leaves table and counter alone.  The UDP variant does not
    compare the sender with the stored peer: a datagram from anyone is
    delivered, and the peer stays what it was. *)
Theorem receive_success_effect `{Platform}
    (conn_id len : Z) (os : recv_reply) (m : machine) (c : network_conn) :
  0 <= conn_id < 32 ->
  g_conns m !! Z.to_nat conn_id = Some c ->
  state c = NETWORK_CONN_STATE_CONNECTED ->
  0 <= recv_ret os ->
  network_udp_receive conn_id len os m =
    Returned (to_int (recv_ret os))
      (with_log [EvRecvfrom (fd c) len (recv_ret os);
                 EvHexdump (LineReceived (recv_ret os) (ntohs (sin_port (recv_from os))))
                   (recv_buf os) (recv_ret os)] m)
  /\ network_tcp_receive conn_id len os m =
    Returned (to_int (recv_ret os))
      (with_log [EvRecv (fd c) len (recv_ret os);
                 EvHexdump (LineReceived (recv_ret os) (ntohs (sin_port (sin_oth c))))
                   (recv_buf os) (recv_ret os)] m).
Proof.
  intros Hr Hl Hs Hret.
  assert (Hnn : (recv_ret os <? 0) = false) by lia.
  destruct c as [f sv st me oth sl]; simpl in Hs; subst st.
  unfold network_udp_receive, network_tcp_receive.
  split; [destruct sv|]; exec_at Hr Hl; rewrite Hnn; exec_code Hin Hl; same_machine.
Qed.

Lemma receive_success_effect_witness :
  network_udp_receive (P := linux_le) 0 1500 datagram_of_4 (machine_with tcp_client_connected)
  = Returned 4
      (with_log [EvRecvfrom 3 1500 4;
                 EvHexdump (LineReceived 4 53) [Byte.x01; Byte.x02; Byte.x03; Byte.x04] 4]
         (machine_with tcp_client_connected)).
Proof.
  destruct (receive_success_effect (H := linux_le) 0 1500 datagram_of_4
              (machine_with tcp_client_connected) tcp_client_connected
              ltac:(lia) eq_refl eq_refl ltac:(simpl; lia)) as [Hudp _].
  exact Hudp.
Defined.

(** X7. [network_tcp_connect] on a Disconnected record stores the peer and
    calls [connect] on the record's descriptor.  If the kernel answers 0 the
    record becomes Connected and the call returns 0.  Otherwise the call
    logs [perror], returns -1 and leaves the record Disconnected with the
    descriptor still open (nothing is closed) and the refused peer stored;
    a further connect on the handle is then accepted. *)
Theorem tcp_connect_effect `{Platform}
    (conn_id addr port connect_ret : Z) (m : machine) (c : network_conn) :
  0 <= conn_id < 32 ->
  g_conns m !! Z.to_nat conn_id = Some c ->
  state c = NETWORK_CONN_STATE_DISCONNECTED ->
  let peer := peer_of addr port in
  let call := EvConnect (fd c) peer sizeof_sockaddr_in connect_ret in
  (connect_ret = 0 ->
     network_tcp_connect conn_id addr port connect_ret m =
       Returned 0 (with_slot conn_id (connected_to peer c) [call] m))
  /\ (connect_ret <> 0 ->
     let m' := with_slot conn_id (set_slen sizeof_sockaddr_in (set_sin_oth peer c))
                 [call; EvPerror "connect"] m in
     network_tcp_connect conn_id addr port connect_ret m = Returned (-1) m'
     /\ forall addr' port' connect_ret',
          exists r'' m'', network_tcp_connect conn_id addr' port' connect_ret' m'
                          = Returned r'' m'').
Proof.
  intros Hr Hl Hs peer call. subst peer call.
  destruct c as [f sv st me oth sl]; simpl in Hs; subst st.
  unfold network_tcp_connect. split.
  - intros ->. exec_at Hr Hl. same_machine.
  - intros Hne.
    assert (Hnz : (connect_ret =? 0) = false) by lia.
    split.
    + exec_at Hr Hl. rewrite Hnz. exec_code Hin Hl. same_machine.
    + intros addr' port' connect_ret'. unfold with_slot.
      exec_at Hr Hl. destruct (connect_ret' =? 0); exec_code Hin Hl;
        eexists _, _; reflexivity.
Qed.

Lemma tcp_connect_effect_witness :
  exists m',
    network_tcp_connect (P := linux_le) 0 16777343 13568 (-1) after_tcp_init
      = Returned (-1) m'
    /\ (state <$> g_conns m' !! 0%nat) = Some NETWORK_CONN_STATE_DISCONNECTED
    /\ os_trace m' = os_trace after_tcp_init
         ++ [EvConnect 3 (peer_of 16777343 13568) 16 (-1); EvPerror "connect"].
Proof.
  destruct (tcp_connect_effect (H := linux_le) 0 16777343 13568 (-1) after_tcp_init
              (conn_after_init (H := linux_le) 3 0 false conn_zero)
              ltac:(lia) eq_refl eq_refl) as [_ Hfail].
  destruct (Hfail ltac:(lia)) as [Hrun _].
  eexists. split; [exact Hrun|]. split; reflexivity.
Defined.

(** ** Further properties: free, reconnect and the first datagram *)

Lemma uninitialized_refused (k : call) (h : Z) (c : network_conn) :
  handle_of k = Some h ->
  state c = NETWORK_CONN_STATE_UNITIALIZED ->
  spec_required_state k c = false.
Proof.
  intros Hk Hs. destruct c as [f sv st me oth sl]; simpl in Hs; subst st.
  destruct k; simpl in Hk; try discriminate; simpl; destruct sv; reflexivity.
Qed.

(** X8. [free] on a Disconnected record returns 0 and makes the record
    Uninitialized; the UDP variant closes the descriptor, the TCP variant
    makes no call to the operating system at all.  After either, every
    operation on the handle fails its assertion: the handle is dead. *)
Theorem free_effect `{Platform} (conn_id : Z) (m : machine) (c : network_conn) :
  0 <= conn_id < 32 ->
  g_conns m !! Z.to_nat conn_id = Some c ->
  state c = NETWORK_CONN_STATE_DISCONNECTED ->
  let freed := set_state NETWORK_CONN_STATE_UNITIALIZED c in
  network_udp_free conn_id m = Returned 0 (with_slot conn_id freed [EvClose (fd c)] m)
  /\ network_tcp_free conn_id m = Returned 0 (with_slot conn_id freed [] m)
  /\ forall ext k,
       handle_of k = Some conn_id ->
       exec k (with_slot conn_id freed ext m)
       = Killed AssertionFailed (with_slot conn_id freed ext m).
Proof.
  intros Hr Hl Hs freed. subst freed.
  split; [|split].
  - destruct c as [f sv st me oth sl]; simpl in Hs; subst st.
    unfold network_udp_free. exec_at Hr Hl. same_machine.
  - destruct c as [f sv st me oth sl]; simpl in Hs; subst st.
    unfold network_tcp_free. exec_at Hr Hl. same_machine.
  - intros ext k Hk.
    apply (exec_wrong_state k conn_id _ (set_state NETWORK_CONN_STATE_UNITIALIZED c) Hk Hr).
    + unfold with_slot. cbn [g_conns]. eapply lookup_insert_here; eassumption.
    + eapply uninitialized_refused; [eassumption|reflexivity].
Qed.

Lemma free_effect_witness :
  network_tcp_free 0 after_tcp_init
  = Returned 0
      (with_slot 0
         (set_state NETWORK_CONN_STATE_UNITIALIZED
            (conn_after_init (H := linux_le) 3 0 false conn_zero)) [] after_tcp_init).
Proof.
  destruct (free_effect (H := linux_le) 0 after_tcp_init
              (conn_after_init (H := linux_le) 3 0 false conn_zero)
              ltac:(lia) eq_refl eq_refl) as (_ & Htcp & _).
  exact Htcp.
Defined.

Ltac run_calls Hr Hl :=
  cbn [run]; unfold_ops; exec_at Hr Hl.

(** X9. Over UDP, connect and disconnect are bookkeeping only: a record can
    be connected, disconnected and connected to another peer without a
    single call to the operating system, on the same descriptor; the record
    ends up Connected to the last peer given. *)
Theorem udp_reconnect_is_local `{Platform}
    (conn_id a1 p1 a2 p2 : Z) (m : machine) (c : network_conn) :
  0 <= conn_id < 32 ->
  g_conns m !! Z.to_nat conn_id = Some c ->
  state c = NETWORK_CONN_STATE_DISCONNECTED ->
  run [UdpConnect conn_id a1 p1; UdpDisconnect conn_id; UdpConnect conn_id a2 p2] m
  = Returned [0; 0; 0] (with_slot conn_id (connected_to (peer_of a2 p2) c) [] m).
Proof.
  intros Hr Hl Hs.
  destruct c as [f sv st me oth sl]; simpl in Hs; subst st.
  run_calls Hr Hl. same_machine.
Qed.

Lemma udp_reconnect_is_local_witness :
  run (P := linux_le) [UdpConnect 0 16777343 13568; UdpDisconnect 0; UdpConnect 0 33554559 13568]
    (machine_with udp_server_waiting)
  = Returned [0; 0; 0]
      (with_slot 0 (connected_to (H := linux_le) (peer_of 33554559 13568) udp_server_waiting) []
         (machine_with udp_server_waiting)).
Proof.
  exact (udp_reconnect_is_local (H := linux_le) 0 16777343 13568 33554559 13568
           (machine_with udp_server_waiting) udp_server_waiting
           ltac:(lia) eq_refl eq_refl).
Defined.

(** X10. Over TCP, disconnect closes the descriptor and nothing opens a new
    one: a connect after a disconnect is accepted by the state check and
    calls [connect] on the very descriptor that was just closed. *)
Theorem tcp_reconnect_uses_closed_descriptor `{Platform}
    (conn_id addr port connect_ret : Z) (m : machine) (c : network_conn) :
  0 <= conn_id < 32 ->
  g_conns m !! Z.to_nat conn_id = Some c ->
  state c = NETWORK_CONN_STATE_CONNECTED ->
  exists r m',
    run [TcpDisconnect conn_id; TcpConnect conn_id addr port connect_ret] m
      = Returned [0; r] m'
    /\ (r = if connect_ret =? 0 then 0 else -1)
    /\ os_trace m' =
         os_trace m
         ++ [EvClose (fd c);
             EvConnect (fd c) (peer_of addr port) sizeof_sockaddr_in connect_ret]
         ++ (if connect_ret =? 0 then [] else [EvPerror "connect"]).
Proof.
  intros Hr Hl Hs.
  destruct c as [f sv st me oth sl]; simpl in Hs; subst st.
  run_calls Hr Hl. destruct (connect_ret =? 0); exec_code Hin Hl;
    (eexists _, _; split; [reflexivity|]; split; [reflexivity|];
     cbn [os_trace fd]; unfold peer_of; rewrite <- ?app_assoc; reflexivity).
Qed.

Lemma tcp_reconnect_uses_closed_descriptor_witness :
  exists m',
    run (P := linux_le) [TcpDisconnect 0; TcpConnect 0 16777343 13568 0]
      (machine_with tcp_client_connected) = Returned [0; 0] m'
    /\ os_trace m' = [EvClose 3; EvConnect 3 (peer_of 16777343 13568) 16 0].
Proof.
  destruct (tcp_reconnect_uses_closed_descriptor (H := linux_le) 0 16777343 13568 0
              (machine_with tcp_client_connected) tcp_client_connected
              ltac:(lia) eq_refl eq_refl) as (r & m' & Hrun & Hres & Htr).
  simpl in Hres. subst r. exists m'. split; [exact Hrun|exact Htr].
Defined.

(** X11. A UDP server keeps the first sender: of two datagrams received in
    a row on a Disconnected server record, the first one's sender becomes
    the peer and the second one's is ignored.  Only after a disconnect does
    the next datagram's sender become the peer. *)
Theorem udp_server_peer_is_first_sender `{Platform}
    (conn_id len : Z) (os1 os2 : recv_reply) (m : machine) (c : network_conn) :
  0 <= conn_id < 32 ->
  g_conns m !! Z.to_nat conn_id = Some c ->
  server c = true ->
  state c = NETWORK_CONN_STATE_DISCONNECTED ->
  0 <= recv_ret os1 -> 0 <= recv_ret os2 ->
  let sender (os : recv_reply) := peer_of (s_addr (recv_from os)) (sin_port (recv_from os)) in
  (exists m',
     run [UdpReceive conn_id len os1; UdpReceive conn_id len os2] m
       = Returned [to_int (recv_ret os1); to_int (recv_ret os2)] m'
     /\ g_conns m' = <[Z.to_nat conn_id := connected_to (sender os1) c]> (g_conns m))
  /\ (exists m',
        run [UdpReceive conn_id len os1; UdpDisconnect conn_id; UdpReceive conn_id len os2] m
          = Returned [to_int (recv_ret os1); 0; to_int (recv_ret os2)] m'
        /\ g_conns m' = <[Z.to_nat conn_id := connected_to (sender os2) c]> (g_conns m)).
Proof.
  intros Hr Hl Hsv Hs Hr1 Hr2 sender. subst sender.
  assert (Hn1 : (recv_ret os1 <? 0) = false) by lia.
  assert (Hn2 : (recv_ret os2 <? 0) = false) by lia.
  destruct c as [f sv st me oth sl]; simpl in Hsv, Hs; subst sv st.
  split; run_calls Hr Hl; rewrite Hn1; exec_code Hin Hl; rewrite Hn2; exec_code Hin Hl;
    (eexists; split; [reflexivity|]; reflexivity).
Qed.

Lemma udp_server_peer_is_first_sender_witness :
  exists m',
    run (P := linux_le) [UdpReceive 0 1500 datagram_of_4; UdpReceive 0 1500 datagram_from_other]
      (machine_with udp_server_waiting) = Returned [4; 1] m'
    /\ (sin_oth <$> g_conns m' !! 0%nat) = Some (peer_of 16777343 13568).
Proof.
  destruct (udp_server_peer_is_first_sender (H := linux_le) 0 1500
              datagram_of_4 datagram_from_other
              (machine_with udp_server_waiting) udp_server_waiting
              ltac:(lia) eq_refl eq_refl eq_refl ltac:(simpl; lia) ltac:(simpl; lia))
    as [(m' & Hrun & Htab) _].
  exists m'. split; [exact Hrun|]. rewrite Htab. reflexivity.
Defined.

(** ** Further properties: init in full, and descriptors *)

Ltac init_log_done Hr :=
  unfold udp_init_log, tcp_init_log, perror_unless_zero, conn_after_init;
  rewrite (to_int_succ _ Hr);
  cbn [socket_ret]; rewrite <- ?app_assoc; reflexivity.

Lemma udp_init_success `{Platform} port server os m c :
  next_slot_free m c ->
  socket_ret os <> -1 ->
  (0 < port -> bind_ret os <> -1) ->
  network_udp_init_conn port server os m =
    Returned (g_conn_count m)
      {| g_conn_count := g_conn_count m + 1;
         g_conns := <[Z.to_nat (g_conn_count m) :=
                       conn_after_init (socket_ret os) port server c]> (g_conns m);
         os_trace := os_trace m ++ udp_init_log port os |}.
Proof.
  intros (Hr & Hl & Hs) Hsock Hbind.
  assert (Hfd : (socket_ret os =? -1) = false) by lia.
  destruct c as [f sv st me oth sl]; simpl in Hs; subst st.
  unfold network_udp_init_conn, udp_init_log, perror_unless_zero. exec_init Hr Hl.
  rewrite Hfd. exec_code Hin Hl.
  destruct (rcvtimeo_ret os =? 0), (sndtimeo_ret os =? 0); exec_code Hin Hl;
    (destruct (0 <? port) eqn:Hport; exec_code Hin Hl;
     [assert (Hb : (bind_ret os =? -1) = false) by lia; rewrite Hb; exec_code Hin Hl|];
     init_log_done Hr).
Qed.

Lemma tcp_init_success `{Platform} port server os m c :
  next_slot_free m c ->
  socket_ret os <> -1 ->
  (0 < port -> bind_ret os = 0) ->
  network_tcp_init_conn port server os m =
    Returned (g_conn_count m)
      {| g_conn_count := g_conn_count m + 1;
         g_conns := <[Z.to_nat (g_conn_count m) :=
                       conn_after_init (socket_ret os) port false c]> (g_conns m);
         os_trace := os_trace m ++ tcp_init_log port os |}.
Proof.
  intros (Hr & Hl & Hs) Hsock Hbind.
  assert (Hfd : (socket_ret os =? -1) = false) by lia.
  destruct c as [f sv st me oth sl]; simpl in Hs; subst st.
  unfold network_tcp_init_conn, tcp_init_log, perror_unless_zero. exec_init Hr Hl.
  rewrite Hfd. exec_code Hin Hl.
  destruct (rcvtimeo_ret os =? 0), (sndtimeo_ret os =? 0), (reuseaddr_ret os =? 0);
    exec_code Hin Hl;
    (destruct (0 <? port) eqn:Hport; exec_code Hin Hl;
     [assert (Hb : (bind_ret os =? 0) = true) by lia; rewrite Hb; exec_code Hin Hl|];
     init_log_done Hr).
Qed.

(** X12. When [socket] succeeds and [bind] is either not called
    ([port] is 0) or succeeds, an init call returns the old counter value
    as the handle and leaves a Disconnected record with the descriptor, the
    server flag (always false for TCP) and the wildcard local endpoint.  Its
    calls are exactly: [socket]; the receive and send timeouts of 3 s (and
    SO_REUSEADDR for TCP), each followed by a [perror] line when it fails;
    [bind] only when [port > 0].  A failing [setsockopt] therefore never
    makes init fail, and nothing is closed. *)
Theorem init_success_effect `{Platform}
    (port : Z) (server : bool) (os : init_reply) (m : machine) (c : network_conn) :
  next_slot_free m c ->
  socket_ret os <> -1 ->
  (0 < port -> bind_ret os = 0) ->
  network_udp_init_conn port server os m =
    Returned (g_conn_count m)
      {| g_conn_count := g_conn_count m + 1;
         g_conns := <[Z.to_nat (g_conn_count m) :=
                       conn_after_init (socket_ret os) port server c]> (g_conns m);
         os_trace := os_trace m ++ udp_init_log port os |}
  /\ network_tcp_init_conn port server os m =
    Returned (g_conn_count m)
      {| g_conn_count := g_conn_count m + 1;
         g_conns := <[Z.to_nat (g_conn_count m) :=
                       conn_after_init (socket_ret os) port false c]> (g_conns m);
         os_trace := os_trace m ++ tcp_init_log port os |}.
Proof.
  intros Hslot Hsock Hbind. split.
  - apply udp_init_success; [assumption|assumption|]. intros Hp. rewrite (Hbind Hp). lia.
  - apply tcp_init_success; assumption.
Qed.

Lemma init_success_effect_witness :
  exists m',
    network_tcp_init_conn (P := linux_le) 0 true (reply_options_refused 4) after_first_init
      = Returned 1 m'
    /\ (state <$> g_conns m' !! 1%nat) = Some NETWORK_CONN_STATE_DISCONNECTED
    /\ (server <$> g_conns m' !! 1%nat) = Some false.
Proof.
  destruct (init_success_effect (H := linux_le) 0 true (reply_options_refused 4)
              after_first_init conn_zero after_first_init_slot
              ltac:(simpl; lia) ltac:(lia)) as [_ Htcp].
  eexists. split; [exact Htcp|]. split; reflexivity.
Defined.

(** X13. When [socket] fails, an init call logs [perror], returns -1 and
    makes no further call: no option is set, nothing is bound and nothing is
    closed.  The slot keeps its Uninitialized state with -1 stored as its
    descriptor, and the counter has moved past it. *)
Theorem init_socket_failure `{Platform}
    (port : Z) (server : bool) (os : init_reply) (m : machine) (c : network_conn) :
  next_slot_free m c ->
  socket_ret os = -1 ->
  network_udp_init_conn port server os m =
    Returned (-1)
      {| g_conn_count := g_conn_count m + 1;
         g_conns := <[Z.to_nat (g_conn_count m) := set_fd (-1) c]> (g_conns m);
         os_trace := os_trace m
                     ++ [EvSocket AF_INET SOCK_DGRAM IPPROTO_UDP (-1); EvPerror "socket"] |}
  /\ network_tcp_init_conn port server os m =
    Returned (-1)
      {| g_conn_count := g_conn_count m + 1;
         g_conns := <[Z.to_nat (g_conn_count m) := set_fd (-1) c]> (g_conns m);
         os_trace := os_trace m
                     ++ [EvSocket AF_INET SOCK_STREAM IPPROTO_IP (-1); EvPerror "socket"] |}.
Proof.
  intros (Hr & Hl & Hs) Hsock.
  destruct c as [f sv st me oth sl]; simpl in Hs; subst st.
  unfold network_udp_init_conn, network_tcp_init_conn.
  split; exec_init Hr Hl; rewrite Hsock; exec_code Hin Hl;
    rewrite (to_int_succ _ Hr), <- ?app_assoc; reflexivity.
Qed.

Lemma init_socket_failure_witness :
  network_udp_init_conn (P := linux_le) 0 true reply_no_socket after_first_init
  = Returned (-1)
      {| g_conn_count := 2;
         g_conns := <[1%nat := set_fd (-1) conn_zero]> (g_conns after_first_init);
         os_trace := os_trace after_first_init
                     ++ [EvSocket AF_INET SOCK_DGRAM IPPROTO_UDP (-1); EvPerror "socket"] |}.
Proof.
  destruct (init_socket_failure (H := linux_le) 0 true reply_no_socket
              after_first_init conn_zero after_first_init_slot eq_refl) as [Hudp _].
  exact Hudp.
Defined.

Lemma count_events_app (p : event -> bool) (t1 t2 : list event) :
  count_events p (t1 ++ t2) = (count_events p t1 + count_events p t2)%nat.
Proof. induction t1 as [|e t1 IH]; simpl; [reflexivity|]. rewrite IH. lia. Qed.

Lemma init_log_counts `{Platform} (port : Z) (os : init_reply) (s : Z) :
  count_events (is_close s) (udp_init_log port os) = 0%nat
  /\ count_events is_socket (udp_init_log port os) = 1%nat
  /\ count_events (is_close s) (tcp_init_log port os) = 0%nat
  /\ count_events is_socket (tcp_init_log port os) = 1%nat.
Proof.
  unfold udp_init_log, tcp_init_log, perror_unless_zero.
  destruct (rcvtimeo_ret os =? 0), (sndtimeo_ret os =? 0), (reuseaddr_ret os =? 0),
    (0 <? port); repeat split; reflexivity.
Qed.

Ltac after_init Hslot Hsock Hudp Htcp Hr Hl :=
  rewrite run_cons; cbn [exec];
  first [rewrite (udp_init_success _ _ _ _ _ Hslot Hsock Hudp)
        | rewrite (tcp_init_success _ _ _ _ _ Hslot Hsock Htcp)];
  unfold conn_after_init; run_calls Hr Hl.

Ltac count_log :=
  rewrite ?count_events_app; cbn [count_events is_close is_socket];
  rewrite ?Z.eqb_refl;
  match goal with
  | |- context [@udp_init_log ?P ?port ?os] =>
      let E1 := fresh in let E2 := fresh in
      destruct (@init_log_counts P port os (socket_ret os)) as (E1 & E2 & _ & _);
      rewrite ?E1, ?E2
  | |- context [@tcp_init_log ?P ?port ?os] =>
      let E1 := fresh in let E2 := fresh in
      destruct (@init_log_counts P port os (socket_ret os)) as (_ & _ & E1 & E2);
      rewrite ?E1, ?E2
  end; reflexivity.

(** X14. A connection that goes through its whole life (init, connect,
    disconnect, free) opens one descriptor and closes it exactly once, over
    either transport (at free for UDP, at disconnect for TCP), and ends as
    an Uninitialized record. *)
Theorem lifecycle_closes_descriptor_once `{Platform}
    (port : Z) (server : bool) (os : init_reply) (addr p : Z)
    (m : machine) (c : network_conn) :
  next_slot_free m c ->
  socket_ret os <> -1 ->
  (0 < port -> bind_ret os = 0) ->
  let h := g_conn_count m in
  let s := socket_ret os in
  (exists m' ext,
     run [UdpInit port server os; UdpConnect h addr p; UdpDisconnect h; UdpFree h] m
       = Returned [h; 0; 0; 0] m'
     /\ os_trace m' = os_trace m ++ ext
     /\ count_events is_socket ext = 1%nat
     /\ count_events (is_close s) ext = 1%nat
     /\ (state <$> g_conns m' !! Z.to_nat h) = Some NETWORK_CONN_STATE_UNITIALIZED)
  /\ (exists m' ext,
        run [TcpInit port server os; TcpConnect h addr p 0; TcpDisconnect h; TcpFree h] m
          = Returned [h; 0; 0; 0] m'
        /\ os_trace m' = os_trace m ++ ext
        /\ count_events is_socket ext = 1%nat
        /\ count_events (is_close s) ext = 1%nat
        /\ (state <$> g_conns m' !! Z.to_nat h) = Some NETWORK_CONN_STATE_UNITIALIZED).
Proof.
  intros Hslot Hsock Hbind h s. subst h s.
  assert (Hbind' : 0 < port -> bind_ret os <> -1) by (intros Hp; rewrite (Hbind Hp); lia).
  pose proof Hslot as (Hr & Hl & Hs). split.
  - after_init Hslot Hsock Hbind' Hbind Hr Hl.
    eexists _, (udp_init_log port os ++ [EvClose (socket_ret os)]).
    split; [reflexivity|]. cbn [os_trace g_conns].
    split; [rewrite <- ?app_assoc; reflexivity|].
    split; [count_log|]. split; [count_log|].
    rewrite (lookup_insert_here _ _ _ _ Hl). reflexivity.
  - after_init Hslot Hsock Hbind' Hbind Hr Hl.
    eexists _, (tcp_init_log port os
                ++ [EvConnect (socket_ret os) (peer_of addr p) sizeof_sockaddr_in 0;
                    EvClose (socket_ret os)]).
    split; [reflexivity|]. cbn [os_trace g_conns].
    split; [unfold peer_of; rewrite <- ?app_assoc; reflexivity|].
    split; [count_log|]. split; [count_log|].
    rewrite (lookup_insert_here _ _ _ _ Hl). reflexivity.
Qed.

Lemma lifecycle_closes_descriptor_once_witness :
  exists m' ext,
    run (P := linux_le)
      [TcpInit 0 false (reply_ok 3); TcpConnect 0 16777343 13568 0; TcpDisconnect 0; TcpFree 0]
      machine_start = Returned [0; 0; 0; 0] m'
    /\ os_trace m' = ext
    /\ count_events (is_close 3) ext = 1%nat.
Proof.
  destruct (lifecycle_closes_descriptor_once (H := linux_le) 0 false (reply_ok 3)
              16777343 13568 machine_start conn_zero
              ltac:(split; [simpl; lia|split; reflexivity])
              ltac:(simpl; lia) ltac:(lia))
    as [_ (m' & ext & Hrun & Htr & _ & Hclose & _)].
  exists m', ext. split; [exact Hrun|]. split; [exact Htr|exact Hclose].
Defined.

(** X15. [network_tcp_free] never closes anything, so a TCP record that is
    freed without having been Connected (right after init, or after a
    refused connect) goes back to Uninitialized with its descriptor still
    open: the descriptor is leaked.  The UDP free does close it. *)
Theorem tcp_free_leaks_unconnected `{Platform}
    (port : Z) (server : bool) (os : init_reply) (addr p connect_ret : Z)
    (m : machine) (c : network_conn) :
  next_slot_free m c ->
  socket_ret os <> -1 ->
  (0 < port -> bind_ret os = 0) ->
  connect_ret <> 0 ->
  let h := g_conn_count m in
  let s := socket_ret os in
  (exists m' ext,
     run [TcpInit port server os; TcpFree h] m = Returned [h; 0] m'
     /\ os_trace m' = os_trace m ++ ext
     /\ count_events (is_close s) ext = 0%nat
     /\ (state <$> g_conns m' !! Z.to_nat h) = Some NETWORK_CONN_STATE_UNITIALIZED)
  /\ (exists m' ext,
        run [TcpInit port server os; TcpConnect h addr p connect_ret; TcpFree h] m
          = Returned [h; -1; 0] m'
        /\ os_trace m' = os_trace m ++ ext
        /\ count_events (is_close s) ext = 0%nat
        /\ (state <$> g_conns m' !! Z.to_nat h) = Some NETWORK_CONN_STATE_UNITIALIZED)
  /\ (exists m' ext,
        run [UdpInit port server os; UdpFree h] m = Returned [h; 0] m'
        /\ os_trace m' = os_trace m ++ ext
        /\ count_events (is_close s) ext = 1%nat
        /\ (state <$> g_conns m' !! Z.to_nat h) = Some NETWORK_CONN_STATE_UNITIALIZED).
Proof.
  intros Hslot Hsock Hbind Hne h s. subst h s.
  assert (Hbind' : 0 < port -> bind_ret os <> -1) by (intros Hp; rewrite (Hbind Hp); lia).
  assert (Hnz : (connect_ret =? 0) = false) by lia.
  pose proof Hslot as (Hr & Hl & Hs). split; [|split].
  - after_init Hslot Hsock Hbind' Hbind Hr Hl.
    eexists _, (tcp_init_log port os).
    split; [reflexivity|]. cbn [os_trace g_conns].
    split; [reflexivity|]. split; [count_log|].
    rewrite (lookup_insert_here _ _ _ _ Hl). reflexivity.
  - after_init Hslot Hsock Hbind' Hbind Hr Hl. rewrite Hnz. exec_code Hin Hl.
    eexists _, (tcp_init_log port os
                ++ [EvConnect (socket_ret os) (peer_of addr p) sizeof_sockaddr_in connect_ret;
                    EvPerror "connect"]).
    split; [reflexivity|]. cbn [os_trace g_conns].
    split; [unfold peer_of; rewrite <- ?app_assoc; reflexivity|]. split; [count_log|].
    rewrite (lookup_insert_here _ _ _ _ Hl). reflexivity.
  - after_init Hslot Hsock Hbind' Hbind Hr Hl.
    eexists _, (udp_init_log port os ++ [EvClose (socket_ret os)]).
    split; [reflexivity|]. cbn [os_trace g_conns].
    split; [rewrite <- ?app_assoc; reflexivity|]. split; [count_log|].
    rewrite (lookup_insert_here _ _ _ _ Hl). reflexivity.
Qed.

Lemma tcp_free_leaks_unconnected_witness :
  exists m' ext,
    run (P := linux_le) [TcpInit 0 false (reply_ok 3); TcpFree 0] machine_start
      = Returned [0; 0] m'
    /\ os_trace m' = ext
    /\ count_events (is_close 3) ext = 0%nat.
Proof.
  destruct (tcp_free_leaks_unconnected (H := linux_le) 0 false (reply_ok 3)
              16777343 13568 (-1) machine_start conn_zero
              ltac:(split; [simpl; lia|split; reflexivity])
              ltac:(simpl; lia) ltac:(lia) ltac:(lia))
    as [(m' & ext & Hrun & Htr & Hclose & _) _].
  exists m', ext. split; [exact Hrun|]. split; [exact Htr|exact Hclose].
Defined.

(** X16. A UDP server that has not been connected answers whoever wrote
    first: after a successful receive on a Disconnected server record, a
    send on the handle is accepted and its [sendto] goes to the address and
    port the datagram came from, with the full address length. *)
Theorem udp_server_replies_to_sender `{Platform}
    (conn_id len : Z) (os : recv_reply) (buf : list Byte.byte) (n r : Z)
    (m : machine) (c : network_conn) :
  0 <= conn_id < 32 ->
  g_conns m !! Z.to_nat conn_id = Some c ->
  server c = true ->
  state c = NETWORK_CONN_STATE_DISCONNECTED ->
  0 <= recv_ret os ->
  let sender := peer_of (s_addr (recv_from os)) (sin_port (recv_from os)) in
  exists m' before after,
    run [UdpReceive conn_id len os; UdpSend conn_id buf n r] m
      = Returned [to_int (recv_ret os); to_int r] m'
    /\ os_trace m' =
         os_trace m ++ before
         ++ [EvSendto (fd c) buf n sender sizeof_sockaddr_in r] ++ after
    /\ count_events is_socket (before ++ after) = 0%nat.
Proof.
  intros Hr Hl Hsv Hs Hret sender. subst sender.
  assert (Hnn : (recv_ret os <? 0) = false) by lia.
  destruct c as [f sv st me oth sl]; simpl in Hsv, Hs; subst sv st.
  run_calls Hr Hl. rewrite Hnn. exec_code Hin Hl.
  destruct (r <? 0); exec_code Hin Hl;
    (eexists _,
       [EvRecvfrom f len (recv_ret os);
        EvHexdump (LineReceived (recv_ret os) (ntohs (sin_port (recv_from os))))
          (recv_buf os) (recv_ret os)], _;
     split; [reflexivity|]; cbn [os_trace fd]; unfold peer_of;
     split; [rewrite <- ?app_assoc; cbn [app]; reflexivity|reflexivity]).
Qed.

Lemma udp_server_replies_to_sender_witness :
  exists m' before after,
    run (P := linux_le) [UdpReceive 0 1500 datagram_of_4; UdpSend 0 [Byte.x07] 1 1]
      (machine_with udp_server_waiting) = Returned [4; 1] m'
    /\ os_trace m' =
         before ++ [EvSendto 3 [Byte.x07] 1 (peer_of 16777343 13568) 16 1] ++ after.
Proof.
  destruct (udp_server_replies_to_sender (H := linux_le) 0 1500 datagram_of_4
              [Byte.x07] 1 1 (machine_with udp_server_waiting) udp_server_waiting
              ltac:(lia) eq_refl eq_refl eq_refl ltac:(simpl; lia))
    as (m' & before & after & Hrun & Htr & _).
  exists m', before, after. split; [exact Hrun|exact Htr].
Defined.
